(** * The Python function runtime server: load / invoke / reload lifecycle

    A shallow embedding of [apps/function-runtime/python/server.py]: the two
    module globals [handler_func] and [load_error], the loader
    [load_function], and the POST dispatcher [do_POST] with its output
    capture and its try / except / finally structure.

    Conventions of the embedding.
    - A Python [str] is a list of Unicode code points.
    - Python objects that reach the server (decoded JSON, handler results,
      response dictionaries) are terms of [value].
    - Statements run in a state-and-exception monad [M] over a [World]: the
      process state that outlives a request ([Runtime]), the one mutable
      local of [do_POST] that an [except] clause reads back ([logs]), and
      two observation traces (what was written on the connection, and what
      the request did besides: entering the user function, opening and
      writing the source file, attempting a load).
    - What the interpreter and the operating system decide is a [Host]:
      the two environment settings, [json.loads], the effect of executing
      a source file, [traceback.format_exc] and the clock.
    - The [print] calls of the server itself always happen while the
      original streams are installed and are not represented.  Faults are
      instances of [Exception]; a [BaseException] that is not one would
      leave the server loop and is not represented either.
    - [do_POST] starts from a [Request] whose body is already text.  The
      two steps that produce that text, and that may fail outside every
      [try], are [receive]; [do_POST_bytes] is [do_POST] on the request as
      it arrives. *)

From Stdlib Require Import List ZArith NArith QArith String Ascii Bool Lia.
Import ListNotations.

Set Implicit Arguments.
Set Warnings "-register-all".

Local Open Scope N_scope.
Local Open Scope list_scope.

(** ** Python text *)

Definition str := list N.

Definition py (s : string) : str :=
  map N_of_ascii (list_ascii_of_string s).

Fixpoint str_eqb (a b : str) : bool :=
  match a, b with
  | [], [] => true
  | x :: a', y :: b' => (x =? y) && str_eqb a' b'
  | _, _ => false
  end.

(** [str.isspace] for one code point (the table of CPython's
    [_PyUnicode_IsWhitespace]); [str.strip()] removes exactly these. *)
Definition isspace (c : N) : bool :=
  ((0x09 <=? c) && (c <=? 0x0D)) || ((0x1C <=? c) && (c <=? 0x20))
  || (c =? 0x85) || (c =? 0xA0) || (c =? 0x1680)
  || ((0x2000 <=? c) && (c <=? 0x200A))
  || (c =? 0x2028) || (c =? 0x2029) || (c =? 0x202F) || (c =? 0x205F)
  || (c =? 0x3000).

Fixpoint lstrip (s : str) : str :=
  match s with
  | c :: s' => if isspace c then lstrip s' else s
  | [] => []
  end.

Definition rstrip (s : str) : str := rev (lstrip (rev s)).

Definition strip (s : str) : str := rstrip (lstrip s).

(** [s.split('\n')]: never empty, one more piece than there are line feeds. *)
Fixpoint split_nl (s : str) : list str :=
  match s with
  | [] => [[]]
  | c :: s' =>
      if c =? 10 then [] :: split_nl s'
      else match split_nl s' with
           | l :: ls => (c :: l) :: ls
           | [] => [[c]]
           end
  end.

Fixpoint startswith (p s : str) : bool :=
  match p, s with
  | [], _ => true
  | x :: p', y :: s' => (x =? y) && startswith p' s'
  | _ :: _, [] => false
  end.

(** Truth value of a string: [if s:]. *)
Definition nonempty (s : str) : bool :=
  match s with [] => false | _ => true end.

(** [needle in hay] for two strings. *)
Fixpoint mentions (needle hay : str) : bool :=
  startswith needle hay ||
  match hay with
  | [] => false
  | _ :: hay' => mentions needle hay'
  end.

(** ** Python objects *)

Inductive value : Type :=
| VNone
| VBool (b : bool)
| VInt (n : Z)
| VFloat (bits : N)            (* the binary64 pattern of a float *)
| VStr (s : str)
| VList (xs : list value)
| VDict (items : list (str * value))
| VObject (type_name : str).   (* any object the JSON encoder rejects *)

Definition type_name (v : value) : str :=
  match v with
  | VNone => py "NoneType"
  | VBool _ => py "bool"
  | VInt _ => py "int"
  | VFloat _ => py "float"
  | VStr _ => py "str"
  | VList _ => py "list"
  | VDict _ => py "dict"
  | VObject t => t
  end.

(** Truth value of an object, as tested by [not code]. *)
Definition truthy (v : value) : bool :=
  match v with
  | VNone => false
  | VBool b => b
  | VInt n => negb (n =? 0)%Z
  | VFloat bits => negb (bits mod 2 ^ 63 =? 0)
  | VStr s => nonempty s
  | VList xs => match xs with [] => false | _ => true end
  | VDict items => match items with [] => false | _ => true end
  | VObject _ => true
  end.

Record Exc : Type := mkExc { exc_class : str; exc_str : str }.

Inductive Result (A : Type) : Type :=
| Ok (a : A)
| Raise (e : Exc).
Arguments Ok {A} a.
Arguments Raise {A} e.

Definition AttributeError (msg : str) : Exc := mkExc (py "AttributeError") msg.
Definition TypeError (msg : str) : Exc := mkExc (py "TypeError") msg.

Fixpoint lookup (k : str) (items : list (str * value)) : option value :=
  match items with
  | [] => None
  | (k', v) :: rest => if str_eqb k k' then Some v else lookup k rest
  end.

(** [obj.get(key, default)]: a dictionary method; any other decoded JSON
    value has no attribute [get]. *)
Definition py_get (obj : value) (key : str) (default : value) : Result value :=
  match obj with
  | VDict items =>
      Ok (match lookup key items with Some v => v | None => default end)
  | _ =>
      Raise (AttributeError
               (py "'" ++ type_name obj ++ py "' object has no attribute 'get'"))
  end.

(** [json.dumps]: the encoder walks the object left to right and raises at
    the first object it cannot encode.  The text it produces is not
    represented; a success hands back the object that was encoded. *)
Fixpoint unencodable (v : value) : option Exc :=
  match v with
  | VList xs =>
      (fix walk (l : list value) : option Exc :=
         match l with
         | [] => None
         | x :: r => match unencodable x with
                     | Some e => Some e
                     | None => walk r
                     end
         end) xs
  | VDict items =>
      (fix walk (l : list (str * value)) : option Exc :=
         match l with
         | [] => None
         | (_, x) :: r => match unencodable x with
                          | Some e => Some e
                          | None => walk r
                          end
         end) items
  | VObject t =>
      Some (TypeError (py "Object of type " ++ t ++ py " is not JSON serializable"))
  | _ => None
  end.

Definition json_dumps (v : value) : Result value :=
  match unencodable v with
  | Some e => Raise e
  | None => Ok v
  end.

(** ** Streams, user functions, modules *)

Inductive stream : Type :=
| Console (fd : N)             (* a stream of the process: 1 or 2 *)
| StringIO (buffer : str).

Record Sys : Type := mkSys { sys_stdout : stream; sys_stderr : stream }.

(** A callable taken from the user's module.  It receives the event, may
    write to (or replace) the two streams installed in [sys] while it
    runs, and returns an object or raises. *)
Definition callable_t : Type := value -> Sys -> Result value * Sys.

Inductive pyobj : Type :=
| PyNone
| PyFunc (f : callable_t)
| PyData (type_name : str).    (* any other attribute value; not callable *)

Definition is_None (o : pyobj) : bool :=
  match o with PyNone => true | _ => false end.

Definition callable (o : pyobj) : bool :=
  match o with PyFunc _ => true | _ => false end.

Definition namespace : Type := list (str * pyobj).

Fixpoint getattr (ns : namespace) (name : str) : option pyobj :=
  match ns with
  | [] => None
  | (k, o) :: rest => if str_eqb name k then Some o else getattr rest name
  end.

(** ** The host: environment, interpreter, clock

    [json_loads] stands for the decoder of the standard library: what it
    returns is built from None, booleans, numbers, strings, lists and
    dictionaries, so the [json.dumps(event)] of the log line printed before
    the call cannot fail and is not represented.  [exec_module] gives the
    attributes of the module object after the source has run; what the
    source prints while it runs goes to the process streams. *)

Class Host : Type := mkHost {
  FUNCTION_CODE_PATH : str;
  FUNCTION_HANDLER : str;
  (* json.loads: the decoded object, or the JSONDecodeError raised *)
  json_loads : str -> Result value;
  (* spec_from_file_location / module_from_spec / exec_module on a file
     with this text: the attributes of the fresh module, or the fault *)
  exec_module : str -> Result namespace;
  (* traceback.format_exc() while this fault is being handled *)
  format_exc : Exc -> str;
  (* the successive readings of time.time(), in seconds *)
  time_time : nat -> Q;
}.

(** ** The process state *)

(** What outlives a request: the two module globals, the file at
    [FUNCTION_CODE_PATH] ([None] when [os.path.exists] is false), the
    fault that opening that file for writing would raise, the streams
    installed in [sys], and how many times the clock has been read. *)
Record Runtime : Type := mkRuntime {
  handler_func : pyobj;
  load_error : option str;
  code_file : option str;
  disk_fault : option Exc;
  sys : Sys;
  ticks : nat;
}.

(** What goes out on the connection: [send_response] with the headers,
    then the encoded body. *)
Inductive Sent : Type :=
| Head (status_code : Z)
| Body (data : value).

(** What a request does besides answering. *)
Inductive Event : Type :=
| Entered (event : value)      (* the user function was called on [event] *)
| Opened                       (* the source file was opened for writing *)
| Wrote (text : str)           (* [text] was written to the source file *)
| Loading.                     (* load_function was called *)

Record World : Type := mkWorld {
  runtime : Runtime;
  logs : list str;        (* the local [logs] of do_POST *)
  wire : list Sent;       (* written on the connection, oldest first *)
  trace : list Event;     (* what was done, oldest first *)
}.

Definition set_handler_func (o : pyobj) (rt : Runtime) : Runtime :=
  mkRuntime o (load_error rt) (code_file rt) (disk_fault rt) (sys rt) (ticks rt).
Definition set_load_error (e : option str) (rt : Runtime) : Runtime :=
  mkRuntime (handler_func rt) e (code_file rt) (disk_fault rt) (sys rt) (ticks rt).
Definition set_code_file (f : option str) (rt : Runtime) : Runtime :=
  mkRuntime (handler_func rt) (load_error rt) f (disk_fault rt) (sys rt) (ticks rt).
Definition set_sys (io : Sys) (rt : Runtime) : Runtime :=
  mkRuntime (handler_func rt) (load_error rt) (code_file rt) (disk_fault rt) io (ticks rt).
Definition set_ticks (n : nat) (rt : Runtime) : Runtime :=
  mkRuntime (handler_func rt) (load_error rt) (code_file rt) (disk_fault rt) (sys rt) n.

Definition set_stdout (s : stream) (io : Sys) : Sys := mkSys s (sys_stderr io).
Definition set_stderr (s : stream) (io : Sys) : Sys := mkSys (sys_stdout io) s.

(** ** Statements: state and exceptions *)

Definition M (A : Type) : Type := World -> Result A * World.

Definition ret {A} (a : A) : M A := fun w => (Ok a, w).

Definition raise {A} (e : Exc) : M A := fun w => (Raise e, w).

Definition bind {A B} (m : M A) (k : A -> M B) : M B :=
  fun w =>
    match m w with
    | (Ok a, w') => k a w'
    | (Raise e, w') => (Raise e, w')
    end.

Declare Scope py_scope.
Delimit Scope py_scope with py.
Notation "x <- m ;; k" := (bind m (fun x => k))
  (at level 61, m at next level, right associativity) : py_scope.
Notation "m ;; k" := (bind m (fun _ => k))
  (at level 61, right associativity) : py_scope.
Local Open Scope py_scope.

Definition lift {A} (r : Result A) : M A := fun w => (r, w).

Definition gets {A} (f : Runtime -> A) : M A := fun w => (Ok (f (runtime w)), w).

Definition update (f : Runtime -> Runtime) : M unit :=
  fun w => (Ok tt, mkWorld (f (runtime w)) (logs w) (wire w) (trace w)).

Definition when (b : bool) (m : M unit) : M unit := if b then m else ret tt.

(** [try: m  except Exception as e: h e] *)
Definition try_except {A} (m : M A) (h : Exc -> M A) : M A :=
  fun w =>
    match m w with
    | (Ok a, w') => (Ok a, w')
    | (Raise e, w') => h e w'
    end.

(** [try: m  finally: f] -- [f] runs on both exits; the outcome of [m] is
    kept unless [f] itself raises. *)
Definition try_finally {A} (m : M A) (f : M unit) : M A :=
  fun w =>
    match m w with
    | (r, w') =>
        match f w' with
        | (Ok _, w'') => (r, w'')
        | (Raise e, w'') => (Raise e, w'')
        end
    end.

Definition get_logs : M (list str) := fun w => (Ok (logs w), w).

Definition assign_logs (l : list str) : M unit :=
  fun w => (Ok tt, mkWorld (runtime w) l (wire w) (trace w)).

(** [logs.extend(more)] *)
Definition logs_extend (more : list str) : M unit :=
  fun w => (Ok tt, mkWorld (runtime w) (logs w ++ more) (wire w) (trace w)).

Definition record (ev : Event) : M unit :=
  fun w => (Ok tt, mkWorld (runtime w) (logs w) (wire w) (trace w ++ [ev])).

Definition emit (s : Sent) : M unit :=
  fun w => (Ok tt, mkWorld (runtime w) (logs w) (wire w ++ [s]) (trace w)).

(** [int(x)] for a rational: truncation toward zero. *)
Definition int (x : Q) : Z := Z.quot (Qnum x) (Z.pos (Qden x)).

(** [stream.getvalue()] *)
Definition getvalue (s : stream) : Result str :=
  match s with
  | StringIO buffer => Ok buffer
  | Console _ =>
      Raise (AttributeError
               (py "'_io.TextIOWrapper' object has no attribute 'getvalue'"))
  end.

(** [f(event)] for the object held in [handler_func]. *)
Definition call (f : pyobj) (event : value) : M value :=
  match f with
  | PyFunc h =>
      fun w =>
        let '(r, io) := h event (sys (runtime w)) in
        (r, mkWorld (set_sys io (runtime w)) (logs w) (wire w)
                    (trace w ++ [Entered event]))
  | PyNone => raise (TypeError (py "'NoneType' object is not callable"))
  | PyData t => raise (TypeError (py "'" ++ t ++ py "' object is not callable"))
  end.

(** [x or default] for an optional string. *)
Definition or_else (x : option str) (default : str) : str :=
  match x with
  | Some (c :: s) => c :: s
  | _ => default
  end.

Definition opt_str (x : option str) : value :=
  match x with Some s => VStr s | None => VNone end.

Record Request : Type := mkRequest {
  path : str;
  content_length : Z;   (* the Content-Length header, 0 when there is none *)
  rfile : str;          (* the decoded text of that many bytes of the request *)
}.

Definition read_body (req : Request) : str :=
  if (0 <? content_length req)%Z then rfile req else py "{}".

Section Server.

Context {host : Host}.

(** *** load_function *)

Definition time_time_ : M Q :=
  fun w =>
    let rt := runtime w in
    (Ok (time_time (ticks rt)),
     mkWorld (set_ticks (S (ticks rt)) rt) (logs w) (wire w) (trace w)).

Definition load_function : M bool :=
  record Loading ;;
  try_except
    (file <- gets code_file ;;
     match file with
     | None =>
         update (set_load_error
                   (Some (py "Function code not found at " ++ FUNCTION_CODE_PATH))) ;;
         ret false
     | Some source =>
         module <- lift (exec_module source) ;;
         match getattr module FUNCTION_HANDLER with
         | None =>
             raise (AttributeError
                      (py "Handler '" ++ FUNCTION_HANDLER ++ py "' not found in module"))
         | Some attr =>
             update (set_handler_func attr) ;;
             if negb (callable attr) then
               raise (TypeError
                        (py "Handler '" ++ FUNCTION_HANDLER ++ py "' is not callable"))
             else
               update (set_load_error None) ;;
               ret true
         end
     end)
    (fun e =>
       update (set_load_error (Some (exc_str e))) ;;
       ret false).

(** *** FunctionRuntimeHandler *)

Definition send_json_response (status_code : Z) (data : value) : M unit :=
  emit (Head status_code) ;;
  text <- lift (json_dumps data) ;;
  emit (Body text).

Definition not_found : value :=
  VDict [(py "error", VStr (py "Not found"));
         (py "endpoints",
          VDict [(py "GET /health", VStr (py "Health check"));
                 (py "POST /invoke", VStr (py "Execute function"));
                 (py "POST /reload", VStr (py "Reload function code"))])].

Definition do_GET (req : Request) : M unit :=
  if str_eqb (path req) (py "/health") then
    f <- gets handler_func ;;
    err <- gets load_error ;;
    send_json_response 200
      (VDict [(py "status", VStr (py "healthy"));
              (py "handler", VStr FUNCTION_HANDLER);
              (py "codeLoaded", VBool (negb (is_None f)));
              (py "error", opt_str err)])
  else
    send_json_response 404 not_found.

(** [with open(FUNCTION_CODE_PATH, 'w') as f: f.write(code)] -- opening
    truncates the file before [write] looks at its argument. *)
Definition write_code (code : value) : M unit :=
  fault <- gets disk_fault ;;
  match fault with
  | Some e => raise e
  | None =>
      record Opened ;;
      update (set_code_file (Some [])) ;;
      match code with
      | VStr text => record (Wrote text) ;; update (set_code_file (Some text))
      | _ =>
          raise (TypeError (py "write() argument must be str, not " ++ type_name code))
      end
  end.

Definition reload_envelope (success : bool) (err : option str) : value :=
  VDict [(py "success", VBool success); (py "error", opt_str err)].

Definition success_envelope (duration_ms : Z) (result : value) (l : list str) : value :=
  VDict [(py "status", VStr (py "success"));
         (py "duration_ms", VInt duration_ms);
         (py "response", result);
         (py "logs", VList (map VStr l))].

Definition error_envelope (duration_ms : Z) (e : Exc) (l : list str) : value :=
  VDict [(py "status", VStr (py "error"));
         (py "duration_ms", VInt duration_ms);
         (py "error", VStr (exc_str e));
         (py "stack", VStr (format_exc e));
         (py "logs", VList (map VStr l))].

Definition not_loaded_envelope (err : option str) : value :=
  VDict [(py "status", VStr (py "error"));
         (py "error", VStr (or_else err (py "Function not loaded")))].

Definition do_POST (req : Request) : M unit :=
  if str_eqb (path req) (py "/write-code") then
    let body := read_body req in
    try_except
      (data <- lift (json_loads body) ;;
       code <- lift (py_get data (py "code") VNone) ;;
       if negb (truthy code) then
         send_json_response 400 (VDict [(py "error", VStr (py "Missing code field"))])
       else
         write_code code ;;
         success <- load_function ;;
         err <- gets load_error ;;
         send_json_response (if success then 200 else 500)
                            (reload_envelope success err))
      (fun e => send_json_response 500 (VDict [(py "error", VStr (exc_str e))]))
  else if str_eqb (path req) (py "/reload") then
    success <- load_function ;;
    err <- gets load_error ;;
    send_json_response (if success then 200 else 500) (reload_envelope success err)
  else if str_eqb (path req) (py "/invoke") then
    f <- gets handler_func ;;
    if is_None f then
      err <- gets load_error ;;
      send_json_response 500 (not_loaded_envelope err)
    else
      let body := read_body req in
      start_time <- time_time_ ;;
      assign_logs [] ;;
      try_except
        (parsed <- lift (json_loads body) ;;
         event <- lift (py_get parsed (py "event") parsed) ;;
         old_stdout <- gets (fun rt => sys_stdout (sys rt)) ;;
         old_stderr <- gets (fun rt => sys_stderr (sys rt)) ;;
         update (fun rt => set_sys (set_stdout (StringIO []) (sys rt)) rt) ;;
         update (fun rt => set_sys (set_stderr (StringIO []) (sys rt)) rt) ;;
         result <-
           try_finally
             (f <- gets handler_func ;;
              result <- call f event ;;
              out <- gets (fun rt => sys_stdout (sys rt)) ;;
              stdout_value <- lift (getvalue out) ;;
              err <- gets (fun rt => sys_stderr (sys rt)) ;;
              stderr_value <- lift (getvalue err) ;;
              when (nonempty stdout_value)
                   (logs_extend (split_nl (strip stdout_value))) ;;
              when (nonempty stderr_value)
                   (logs_extend (map (app (py "[ERROR] ")) (split_nl (strip stderr_value)))) ;;
              ret result)
             (update (fun rt => set_sys (set_stdout old_stdout (sys rt)) rt) ;;
              update (fun rt => set_sys (set_stderr old_stderr (sys rt)) rt)) ;;
         now <- time_time_ ;;
         let duration_ms := int ((now - start_time) * 1000) in
         l <- get_logs ;;
         send_json_response 200 (success_envelope duration_ms result l))
        (fun e =>
           now <- time_time_ ;;
           let duration_ms := int ((now - start_time) * 1000) in
           l <- get_logs ;;
           send_json_response 500 (error_envelope duration_ms e l))
  else
    send_json_response 404 not_found.

(** One POST request served from the state [rt]: the state it leaves, and
    what an observer of the request saw. *)
Record Reply : Type := mkReply {
  after : Runtime;
  sent : list Sent;
  did : list Event;
  escaped : option Exc;    (* a fault that left do_POST *)
}.

Definition serve (m : M unit) (rt : Runtime) : Reply :=
  match m (mkWorld rt [] [] []) with
  | (Ok _, w) => mkReply (runtime w) (wire w) (trace w) None
  | (Raise e, w) => mkReply (runtime w) (wire w) (trace w) (Some e)
  end.

(** [load_function()] called from [run_server], or on its own. *)
Definition load (rt : Runtime) : Result bool * Runtime :=
  let '(r, w) := load_function (mkWorld rt [] [] []) in (r, runtime w).

End Server.

(** ** User functions written as scripts *)

Inductive channel : Type := Out | Err.

Definition write_stream (s : stream) (text : str) : stream :=
  match s with
  | StringIO buffer => StringIO (buffer ++ text)
  | Console fd => Console fd
  end.

(** [sys.stdout.write(text)] or [sys.stderr.write(text)], on whatever is
    installed at that moment. *)
Definition write (c : channel) (text : str) (io : Sys) : Sys :=
  match c with
  | Out => set_stdout (write_stream (sys_stdout io) text) io
  | Err => set_stderr (write_stream (sys_stderr io) text) io
  end.

Fixpoint play (script : list (channel * str)) (io : Sys) : Sys :=
  match script with
  | [] => io
  | (c, text) :: rest => play rest (write c text io)
  end.

(** A function that performs the writes of [script] in that order and then
    finishes as [outcome] says. *)
Definition scripted (script : list (channel * str))
                    (outcome : value -> Result value) : callable_t :=
  fun event io => (outcome event, play script io).

(** Everything [script] wrote to one channel, in order. *)
Fixpoint written (c : channel) (script : list (channel * str)) : str :=
  match script with
  | [] => []
  | (Out, text) :: rest =>
      match c with Out => text ++ written c rest | Err => written c rest end
  | (Err, text) :: rest =>
      match c with Err => text ++ written c rest | Out => written c rest end
  end.

(** The lines a captured text contributes to the logs: nothing when it is
    empty, otherwise the pieces of [text.strip().split(LF)]. *)
Definition captured_lines (text : str) : list str :=
  if nonempty text then split_nl (strip text) else [].

Definition error_lines (text : str) : list str :=
  map (app (py "[ERROR] ")) (captured_lines text).

(** ** A concrete host

    The default settings of the server, with the decoder and the
    interpreter tabulated on the request bodies and the one-line source
    files used in the examples below; each entry is what CPython computes
    on that text. *)
Module Demo.

Definition LF : str := [10].

(** A text in which every apostrophe of [s] stands for a double quote. *)
Definition dq (s : string) : str :=
  map (fun c => if c =? 39 then 34 else c) (py s).

Definition JSONDecodeError (msg : str) : Exc := mkExc (py "JSONDecodeError") msg.

Definition bodies : list (str * value) :=
  [ (py "{}", VDict []);
    (dq "{'event': {'x': 1}}", VDict [(py "event", VDict [(py "x", VInt 1)])]);
    (dq "{'event': null}", VDict [(py "event", VNone)]);
    (dq "{'x': 1}", VDict [(py "x", VInt 1)]);
    (py "[1, 2]", VList [VInt 1; VInt 2]);
    (py "7", VInt 7);
    (dq "{'code': ''}", VDict [(py "code", VStr [])]);
    (dq "{'code': 0}", VDict [(py "code", VInt 0)]);
    (dq "{'code': 'handler = lambda event: 2'}",
       VDict [(py "code", VStr (py "handler = lambda event: 2"))]);
    (dq "{'note': 'x'}", VDict [(py "note", VStr (py "x"))]) ].

Fixpoint decode (table : list (str * value)) (text : str) : Result value :=
  match table with
  | [] => Raise (JSONDecodeError (py "Expecting value: line 1 column 1 (char 0)"))
  | (t, v) :: rest => if str_eqb text t then Ok v else decode rest text
  end.

(** [lambda event: 1] and [lambda event: 2] *)
Definition version_a : callable_t := scripted [] (fun _ => Ok (VInt 1)).
Definition version_b : callable_t := scripted [] (fun _ => Ok (VInt 2)).

(** [def handler(event): return event] *)
Definition echo : callable_t := scripted [] (fun event => Ok event).

(** [def handler(event): print('hello'); raise Exception('boom')] *)
Definition hello_boom : callable_t :=
  scripted [(Out, py "hello"); (Out, LF)]
           (fun _ => Raise (mkExc (py "Exception") (py "boom"))).

(** [def handler(event): print('  a')] *)
Definition indented : callable_t :=
  scripted [(Out, py "  a"); (Out, LF)] (fun _ => Ok VNone).

Definition sources : list (str * Result namespace) :=
  [ (py "handler = lambda event: 1", Ok [(py "handler", PyFunc version_a)]);
    (py "handler = lambda event: 2", Ok [(py "handler", PyFunc version_b)]);
    (py "def handler(event): return event", Ok [(py "handler", PyFunc echo)]);
    (py "def handler(event): print('hello'); raise Exception('boom')",
       Ok [(py "handler", PyFunc hello_boom)]);
    (py "def handler(event): print('  a')", Ok [(py "handler", PyFunc indented)]);
    (py "handler = 5", Ok [(py "handler", PyData (py "int"))]);
    (py "x = 1", Ok [(py "x", PyData (py "int"))]) ].

Fixpoint execute (table : list (str * Result namespace)) (text : str)
  : Result namespace :=
  match table with
  | [] => Raise (mkExc (py "SyntaxError") (py "invalid syntax (code.py, line 1)"))
  | (t, r) :: rest => if str_eqb text t then r else execute rest text
  end.

#[export] Instance host : Host := {|
  FUNCTION_CODE_PATH := py "/function/code.py";
  FUNCTION_HANDLER := py "handler";
  json_loads := decode bodies;
  exec_module := execute sources;
  format_exc := fun e =>
    py "Traceback (most recent call last):" ++ LF
       ++ exc_class e ++ py ": " ++ exc_str e ++ LF;
  time_time := fun n => (Z.of_nat n # 1000)%Q;
|}.

(** The process before [run_server] has called [load_function]. *)
Definition boot (file : option str) : Runtime :=
  mkRuntime PyNone None file None (mkSys (Console 1) (Console 2)) 0.

(** The process once [run_server] has made its first load attempt on a
    source file with this text. *)
Definition serving (source : string) : Runtime :=
  snd (load (boot (Some (py source)))).

Definition post (p : string) (body : str) : Request :=
  mkRequest (py p) (Z.of_nat (List.length body)) body.

End Demo.

(** ** Observations used in the statements *)

Local Open Scope py_scope.

(** The streams the user function runs under. *)
Definition capture : Sys := mkSys (StringIO []) (StringIO []).

(** The state after the two clock readings of one invocation. *)
Definition timed (rt : Runtime) : Runtime := set_ticks (S (S (ticks rt))) rt.

(** The body of the answer: the last object written on the connection. *)
Fixpoint answer (s : list Sent) : option value :=
  match s with
  | [] => None
  | Head _ :: rest => answer rest
  | Body d :: rest => match answer rest with Some d' => Some d' | None => Some d end
  end.

(** The status line of the answer: the last one written. *)
Fixpoint status (s : list Sent) : option Z :=
  match s with
  | [] => None
  | Body _ :: rest => status rest
  | Head c :: rest => match status rest with Some c' => Some c' | None => Some c end
  end.

Definition field (k : string) (s : list Sent) : option value :=
  match answer s with
  | Some (VDict items) => lookup (py k) items
  | _ => None
  end.

(** The event [do_POST] takes from a decoded object body. *)
Definition event_of (items : list (str * value)) : value :=
  match lookup (py "event") items with
  | Some e => e
  | None => VDict items
  end.

Section Observations.

Context {host : Host}.

Definition duration_ms (rt : Runtime) : Z :=
  int ((time_time (S (ticks rt)) - time_time (ticks rt)) * 1000).

(** The same measurement when the clock is read once more, by the
    [except] clause, after the first answer could not be encoded. *)
Definition late_duration_ms (rt : Runtime) : Z :=
  int ((time_time (S (S (ticks rt))) - time_time (ticks rt)) * 1000).

(** The reply once the user function, entered with [event], has returned
    [result] and the lines [l] have been captured. *)
Definition returned (rt : Runtime) (event result : value) (l : list str) : Reply :=
  match unencodable result with
  | None =>
      mkReply (timed rt)
              [Head 200; Body (success_envelope (duration_ms rt) result l)]
              [Entered event] None
  | Some e =>
      mkReply (set_ticks (S (S (S (ticks rt)))) rt)
              [Head 200; Head 500; Body (error_envelope (late_duration_ms rt) e l)]
              [Entered event] None
  end.

(** The ways a load attempt fails before an entry point is bound, each with
    the message it records. *)
Inductive load_failure (rt : Runtime) : str -> Prop :=
| SourceNotFound :
    code_file rt = None ->
    load_failure rt (py "Function code not found at " ++ FUNCTION_CODE_PATH)
| ParseFailure (source : str) (e : Exc) :
    code_file rt = Some source ->
    exec_module source = Raise e ->
    load_failure rt (exc_str e)
| HandlerMissing (source : str) (module : namespace) :
    code_file rt = Some source ->
    exec_module source = Ok module ->
    getattr module FUNCTION_HANDLER = None ->
    load_failure rt (py "Handler '" ++ FUNCTION_HANDLER ++ py "' not found in module").

End Observations.

(** *** The log lines as the specification words them

    Split on line breaks, drop the trailing blank line, keep everything
    else as written; error-channel lines carry the marker. *)
Fixpoint drop_trailing_blank (ls : list str) : list str :=
  match ls with
  | [] => []
  | [[]] => []
  | l :: rest => l :: drop_trailing_blank rest
  end.

Definition spec_lines (text : str) : list str := drop_trailing_blank (split_nl text).

Definition spec_logs (script : list (channel * str)) : list str :=
  spec_lines (written Out script)
  ++ map (app (py "[ERROR] ")) (spec_lines (written Err script)).

(** The log lines the code attaches after a normal return. *)
Definition code_logs (script : list (channel * str)) : list str :=
  captured_lines (written Out script) ++ error_lines (written Err script).

(** ** The rest of the server: text helpers, methods, [run_server] *)

(** [sep.join(pieces)] *)
Fixpoint join (sep : str) (pieces : list str) : str :=
  match pieces with
  | [] => []
  | [p] => p
  | p :: rest => p ++ sep ++ join sep rest
  end.

(** [s.isspace()] or [s == ''] *)
Definition all_space (s : str) : bool := forallb isspace s.

(** [LF in s] *)
Definition has_line_feed (s : str) : bool := existsb (N.eqb 10) s.

Definition first_char (s : str) : option N :=
  match s with c :: _ => Some c | [] => None end.

Definition last_char (s : str) : option N := first_char (rev s).

Definition space_char (c : option N) : bool :=
  match c with Some x => isspace x | None => false end.

(** The two methods [FunctionRuntimeHandler] defines. *)
Inductive Method : Type := GET | POST.

(** What the environment may change between two requests: the source
    file, and whether it can be opened for writing. *)
Definition outside (file : option str) (fault : option Exc) (rt : Runtime) : Runtime :=
  mkRuntime (handler_func rt) (load_error rt) file fault (sys rt) (ticks rt).

Section Running.

Context {host : Host}.

(** The answer of GET /health. *)
Definition health_body (rt : Runtime) : value :=
  VDict [(py "status", VStr (py "healthy"));
         (py "handler", VStr FUNCTION_HANDLER);
         (py "codeLoaded", VBool (negb (is_None (handler_func rt))));
         (py "error", opt_str (load_error rt))].

Definition handle (m : Method) (req : Request) (rt : Runtime) : Reply :=
  serve (match m with GET => do_GET req | POST => do_POST req end) rt.

(** [run_server]: one call of [load_function], then [serve_forever] hands
    the requests to [do_GET] and [do_POST] one at a time, while the
    environment may touch the file system in between.  [reachable rt0 rt]:
    the server started in state [rt0] can be in state [rt] between two
    requests. *)
Inductive reachable (rt0 : Runtime) : Runtime -> Prop :=
| started : reachable rt0 (snd (load rt0))
| served (rt : Runtime) (m : Method) (req : Request) :
    reachable rt0 rt -> reachable rt0 (after (handle m req rt))
| touched (rt : Runtime) (file : option str) (fault : option Exc) :
    reachable rt0 rt -> reachable rt0 (outside file fault rt).

End Running.

(** ** A second concrete host

    The host of [Demo] with a few more request bodies and source files
    tabulated, again as CPython computes them. *)
Module Lab.

Definition bodies : list (str * value) :=
  [ (Demo.dq "{'code': 5}", VDict [(py "code", VInt 5)]);
    (Demo.dq "{'code': 'def handler(:'}", VDict [(py "code", VStr (py "def handler(:"))]) ]
  ++ Demo.bodies.

(** [def handler(event): print('made'); return object()] *)
Definition maker : callable_t :=
  scripted [(Out, py "made"); (Out, Demo.LF)] (fun _ => Ok (VObject (py "object"))).

Definition sources : list (str * Result namespace) :=
  [ (py "def handler(event): print('made'); return object()",
       Ok [(py "handler", PyFunc maker)]);
    (py "handler = None", Ok [(py "handler", PyNone)]) ]
  ++ Demo.sources.

#[export] Instance host : Host := {|
  FUNCTION_CODE_PATH := py "/function/code.py";
  FUNCTION_HANDLER := py "handler";
  json_loads := Demo.decode bodies;
  exec_module := Demo.execute sources;
  format_exc := fun e =>
    py "Traceback (most recent call last):" ++ Demo.LF
       ++ exc_class e ++ py ": " ++ exc_str e ++ Demo.LF;
  time_time := fun n => (Z.of_nat n # 1000)%Q;
|}.

Definition serving (source : string) : Runtime :=
  snd (load (Demo.boot (Some (py source)))).

End Lab.

(** ** The request as it arrives

    [do_POST] above starts from the text of the body.  The server gets
    that text itself, in the /write-code branch and in the /invoke branch
    once a handler is found, with
    [int(self.headers.get('Content-Length', 0))] and
    [self.rfile.read(content_length).decode('utf-8')] -- both before any
    [try], so a fault of either leaves [do_POST].  The other branches
    never look at the header or at the body. *)

Definition bytes : Type := list N.

(** The two builtins applied to what the client sent. *)
Class Transport : Type := mkTransport {
  (* int(text) for the value of a header, or its ValueError *)
  int_of_text : str -> Result Z;
  (* data.decode('utf-8'), or its UnicodeDecodeError *)
  decode_utf8 : bytes -> Result str;
}.

Record HttpRequest : Type := mkHttpRequest {
  target : str;                  (* self.path *)
  length_header : option str;    (* the Content-Length header, if there is one *)
  rfile_bytes : bytes;           (* what self.rfile holds *)
}.

(** The request of a branch that never reads. *)
Definition unread (h : HttpRequest) : Request := mkRequest (target h) 0 [].

(** Nesting and size within which [json.dumps] encodes an object built
    from None, booleans, numbers, strings, lists and dictionaries: at most
    [depth] levels, integers of at most 4300 digits. *)
Fixpoint plain (depth : nat) (v : value) : bool :=
  match depth with
  | O => false
  | S d =>
      match v with
      | VNone | VBool _ | VFloat _ | VStr _ => true
      | VInt n => (Z.abs n <? 10 ^ 4300)%Z
      | VList xs => forallb (plain d) xs
      | VDict items => forallb (fun kv => plain d (snd kv)) items
      | VObject _ => false
      end
  end.

(** What is on the connection after a POST that answered: one head and
    one JSON object under 200, 400, 404 or 500, with a string [error]
    unless the status is 200 -- or the 200 head followed by a 500 head
    and its object. *)
Definition well_formed (s : list Sent) : Prop :=
  exists (c : Z) (items : list (str * value)),
    (s = [Head c; Body (VDict items)]
     \/ (c = 500%Z /\ s = [Head 200; Head 500; Body (VDict items)]))
    /\ In c [200; 400; 404; 500]%Z
    /\ (c <> 200%Z -> exists msg : str, lookup (py "error") items = Some (VStr msg)).

Section Arrival.

Context {host : Host} {transport : Transport}.

(** Lines 109-110 and 151-152. *)
Definition receive (h : HttpRequest) : Result Request :=
  match
    match length_header h with
    | Some text => int_of_text text
    | None => Ok 0%Z
    end
  with
  | Raise e => Raise e
  | Ok n =>
      if (0 <? n)%Z then
        match decode_utf8 (firstn (Z.to_nat n) (rfile_bytes h)) with
        | Raise e => Raise e
        | Ok text => Ok (mkRequest (target h) n text)
        end
      else Ok (mkRequest (target h) n [])
  end.

(** [do_POST] from the request as it arrives: each branch as [do_POST]
    has it, with the body read where the source reads it. *)
Definition do_POST_bytes (h : HttpRequest) : M unit :=
  if str_eqb (target h) (py "/write-code") then
    req <- lift (receive h) ;;
    do_POST req
  else if str_eqb (target h) (py "/reload") then
    do_POST (unread h)
  else if str_eqb (target h) (py "/invoke") then
    f <- gets handler_func ;;
    if is_None f then do_POST (unread h)
    else
      req <- lift (receive h) ;;
      do_POST req
  else
    do_POST (unread h).

End Arrival.

(** A concrete transport: [int] on plain decimal digits, [decode] on
    ASCII data; the one other input of the examples is the single byte
    0xFF, and each result is what CPython computes there. *)
Module Wire.

Fixpoint decimal (acc : Z) (text : str) : option Z :=
  match text with
  | [] => Some acc
  | c :: rest =>
      if (48 <=? c) && (c <=? 57)
      then decimal (acc * 10 + Z.of_N (c - 48)) rest
      else None
  end.

Definition ValueError (msg : str) : Exc := mkExc (py "ValueError") msg.

Definition int_of_digits (text : str) : Result Z :=
  match text, decimal 0 text with
  | _ :: _, Some n => Ok n
  | _, _ =>
      Raise (ValueError (py "invalid literal for int() with base 10: '" ++ text ++ py "'"))
  end.

Definition decode_ascii (data : bytes) : Result str :=
  if forallb (fun b => b <? 128) data then Ok data
  else Raise (mkExc (py "UnicodeDecodeError")
                (py "'utf-8' codec can't decode byte 0xff in position 0: invalid start byte")).

#[export] Instance transport : Transport := {|
  int_of_text := int_of_digits;
  decode_utf8 := decode_ascii;
|}.

End Wire.

(** * Properties *)

(** ** The text functions on a few inputs, against CPython *)

Example strip_split_print :
  split_nl (strip (py "hello" ++ [10])) = [py "hello"].
Proof. reflexivity. Qed.

Example strip_split_blank_line_inside :
  split_nl (strip (py "a" ++ [10; 10] ++ py "b" ++ [10])) = [py "a"; []; py "b"].
Proof. reflexivity. Qed.

Example strip_split_carriage_return :
  split_nl (strip (py "a" ++ [13; 10] ++ py "b" ++ [10])) = [py "a" ++ [13]; py "b"].
Proof. reflexivity. Qed.

Example strip_split_only_line_feed : split_nl (strip [10]) = [[]].
Proof. reflexivity. Qed.

Example strip_unicode_space : strip ([0xA0] ++ py "x" ++ [0x2028]) = py "x".
Proof. reflexivity. Qed.

Example int_truncates : (int (-19 # 10) = -1 /\ int (19 # 10) = 1)%Z.
Proof. split; reflexivity. Qed.

Example falsy_values :
  map truthy [VNone; VBool false; VInt 0; VFloat 0; VFloat (2 ^ 63);
              VStr []; VList []; VDict []]
  = [false; false; false; false; false; false; false; false]
  /\ map truthy [VFloat 0x7FF8000000000000; VStr (py "0"); VList [VInt 0]]
     = [true; true; true].
Proof. split; reflexivity. Qed.

Unset Implicit Arguments.

Arguments py : simpl never.
Arguments py_get : simpl never.
Arguments json_dumps : simpl never.
Arguments load_function : simpl never.

Ltac on_path H :=
  unfold do_POST; rewrite H;
  repeat match goal with
         | |- context [str_eqb (py ?a) (py ?b)] =>
             let v := eval vm_compute in (str_eqb (py a) (py b)) in
             change (str_eqb (py a) (py b)) with v
         end;
  cbv iota.

Ltac run :=
  unfold send_json_response, bind, gets, update, lift, emit, record, ret, raise, when,
         get_logs, assign_logs, logs_extend, time_time_;
  cbn; autorewrite with dumps; cbn.

Ltac settle rt :=
  destruct rt as [? ? ? ? [? ?] ?]; cbn in *; subst; reflexivity.

Lemma str_eqb_refl (a : str) : str_eqb a a = true.
Proof.
  induction a as [|x a IH]; simpl; [reflexivity|].
  rewrite N.eqb_refl. exact IH.
Qed.

Lemma str_eqb_eq (a b : str) : str_eqb a b = true <-> a = b.
Proof.
  split.
  - revert b. induction a as [|x a IH]; intros [|y b]; simpl; try discriminate.
    + reflexivity.
    + intros H. apply andb_true_iff in H. destruct H as [Hx Hr].
      apply N.eqb_eq in Hx. apply IH in Hr. congruence.
  - intros ->. apply str_eqb_refl.
Qed.

Lemma unencodable_strs (l : list str) : unencodable (VList (map VStr l)) = None.
Proof.
  simpl. induction l as [|s l IH]; simpl; [reflexivity | exact IH].
Qed.

Lemma play_capture (script : list (channel * str)) (a b : str) :
  play script (mkSys (StringIO a) (StringIO b)) =
  mkSys (StringIO (a ++ written Out script)) (StringIO (b ++ written Err script)).
Proof.
  revert a b. induction script as [|[c text] rest IH]; intros a b; simpl.
  - now rewrite !app_nil_r.
  - destruct c; simpl; unfold set_stdout, set_stderr; simpl;
      rewrite IH, <- app_assoc; reflexivity.
Qed.


Section Equations.

Context {host : Host}.

Lemma encodable_dumps (v : value) : unencodable v = None -> json_dumps v = Ok v.
Proof. unfold json_dumps. now intros ->. Qed.

Lemma dumps_error_envelope (d : Z) (e : Exc) (l : list str) :
  json_dumps (error_envelope d e l) = Ok (error_envelope d e l).
Proof.
  apply encodable_dumps. unfold error_envelope.
  change (unencodable (VDict ?x)) with
    (match unencodable (VList (map VStr l)) with Some e' => Some e' | None => None end).
  now rewrite unencodable_strs.
Qed.

Lemma dumps_success_envelope (d : Z) (result : value) (l : list str) :
  json_dumps (success_envelope d result l) =
  match unencodable result with
  | Some e => Raise e
  | None => Ok (success_envelope d result l)
  end.
Proof.
  unfold json_dumps, success_envelope.
  change (unencodable (VDict ?x)) with
    (match unencodable result with
     | Some e' => Some e'
     | None => match unencodable (VList (map VStr l)) with
               | Some e' => Some e' | None => None end
     end).
  rewrite unencodable_strs. now destruct (unencodable result).
Qed.

Lemma dumps_not_loaded_envelope (err : option str) :
  json_dumps (not_loaded_envelope err) = Ok (not_loaded_envelope err).
Proof. reflexivity. Qed.

Lemma dumps_reload_envelope (success : bool) (err : option str) :
  json_dumps (reload_envelope success err) = Ok (reload_envelope success err).
Proof. apply encodable_dumps. now destruct err. Qed.

Lemma dumps_error_only (msg : str) :
  json_dumps (VDict [(py "error", VStr msg)]) = Ok (VDict [(py "error", VStr msg)]).
Proof. reflexivity. Qed.

Create Rewrite HintDb dumps.
Hint Rewrite dumps_error_envelope dumps_success_envelope dumps_not_loaded_envelope
     dumps_reload_envelope dumps_error_only : dumps.

Lemma invoke_not_loaded_reply (rt : Runtime) (req : Request) :
  path req = py "/invoke" ->
  handler_func rt = PyNone ->
  serve (do_POST req) rt =
  mkReply rt [Head 500; Body (not_loaded_envelope (load_error rt))] [] None.
Proof.
  intros Hp Hf. unfold serve. on_path Hp. run.
  rewrite Hf. run. reflexivity.
Qed.


Lemma invoke_undecodable_reply (rt : Runtime) (req : Request) (e : Exc) :
  path req = py "/invoke" ->
  is_None (handler_func rt) = false ->
  json_loads (read_body req) = Raise e ->
  serve (do_POST req) rt =
  mkReply (timed rt) [Head 500; Body (error_envelope (duration_ms rt) e [])] [] None.
Proof.
  intros Hp Hf Hj. unfold serve. on_path Hp. run.
  rewrite Hf. unfold try_except. run. rewrite Hj. run.
  reflexivity.
Qed.

Lemma invoke_not_object_reply (rt : Runtime) (req : Request) (v : value) (e : Exc) :
  path req = py "/invoke" ->
  is_None (handler_func rt) = false ->
  json_loads (read_body req) = Ok v ->
  py_get v (py "event") v = Raise e ->
  serve (do_POST req) rt =
  mkReply (timed rt) [Head 500; Body (error_envelope (duration_ms rt) e [])] [] None.
Proof.
  intros Hp Hf Hj Hg. unfold serve. on_path Hp. run.
  rewrite Hf. unfold try_except. run. rewrite Hj. run. rewrite Hg. run.
  reflexivity.
Qed.

Lemma invoke_not_callable_reply (rt : Runtime) (req : Request) (v event : value) (t : str) :
  path req = py "/invoke" ->
  handler_func rt = PyData t ->
  json_loads (read_body req) = Ok v ->
  py_get v (py "event") v = Ok event ->
  serve (do_POST req) rt =
  mkReply (timed rt)
    [Head 500;
     Body (error_envelope (duration_ms rt)
             (TypeError (py "'" ++ t ++ py "' object is not callable")) [])]
    [] None.
Proof.
  intros Hp Hf Hj Hg. unfold serve. on_path Hp. run.
  rewrite Hf. unfold try_except, try_finally. run. rewrite Hj. run. rewrite Hg. run. rewrite Hf. run.
  settle rt.
Qed.

Lemma invoke_raises_reply (rt : Runtime) (req : Request) (h : callable_t)
      (v event : value) (e : Exc) (io : Sys) :
  path req = py "/invoke" ->
  handler_func rt = PyFunc h ->
  json_loads (read_body req) = Ok v ->
  py_get v (py "event") v = Ok event ->
  h event capture = (Raise e, io) ->
  serve (do_POST req) rt =
  mkReply (timed rt) [Head 500; Body (error_envelope (duration_ms rt) e [])] [Entered event] None.
Proof.
  intros Hp Hf Hj Hg Hh. unfold serve. on_path Hp. run.
  rewrite Hf. unfold try_except, try_finally. run. rewrite Hj. run. rewrite Hg. run. rewrite Hf.
  unfold call. run.
  change (set_stderr (StringIO []) (set_stdout (StringIO []) (sys rt))) with capture.
  rewrite Hh. run.
  settle rt.
Qed.


Lemma invoke_returns_reply (rt : Runtime) (req : Request) (h : callable_t)
      (v event result : value) (io : Sys) (out err : str) :
  path req = py "/invoke" ->
  handler_func rt = PyFunc h ->
  json_loads (read_body req) = Ok v ->
  py_get v (py "event") v = Ok event ->
  h event capture = (Ok result, io) ->
  getvalue (sys_stdout io) = Ok out ->
  getvalue (sys_stderr io) = Ok err ->
  serve (do_POST req) rt =
  returned rt event result (captured_lines out ++ error_lines err).
Proof.
  intros Hp Hf Hj Hg Hh Ho He. unfold serve. on_path Hp. run.
  rewrite Hf. unfold try_except, try_finally. run.
  rewrite Hj. run. rewrite Hg. run. rewrite Hf.
  unfold call. run.
  change (set_stderr (StringIO []) (set_stdout (StringIO []) (sys rt))) with capture.
  rewrite Hh. run. rewrite Ho, He.
  unfold returned, error_lines, captured_lines.
  destruct (nonempty out), (nonempty err); run;
    destruct (unencodable result) as [e|] eqn:Hu; run;
    rewrite ?app_nil_r; settle rt.
Qed.

Lemma invoke_getvalue_fails_reply (rt : Runtime) (req : Request) (h : callable_t)
      (v event result : value) (io : Sys) (e : Exc) :
  path req = py "/invoke" ->
  handler_func rt = PyFunc h ->
  json_loads (read_body req) = Ok v ->
  py_get v (py "event") v = Ok event ->
  h event capture = (Ok result, io) ->
  match getvalue (sys_stdout io) with
  | Raise e' => e' = e
  | Ok _ => getvalue (sys_stderr io) = Raise e
  end ->
  serve (do_POST req) rt =
  mkReply (timed rt) [Head 500; Body (error_envelope (duration_ms rt) e [])] [Entered event] None.
Proof.
  intros Hp Hf Hj Hg Hh Hv. unfold serve. on_path Hp. run.
  rewrite Hf. unfold try_except, try_finally. run.
  rewrite Hj. run. rewrite Hg. run. rewrite Hf.
  unfold call. run.
  change (set_stderr (StringIO []) (set_stdout (StringIO []) (sys rt))) with capture.
  rewrite Hh. run.
  destruct (getvalue (sys_stdout io)) as [out|e'].
  - rewrite Hv. run. settle rt.
  - subst e'. run. settle rt.
Qed.


Lemma invoke_enters (rt : Runtime) (req : Request) (h : callable_t) (v event : value) :
  path req = py "/invoke" ->
  handler_func rt = PyFunc h ->
  json_loads (read_body req) = Ok v ->
  py_get v (py "event") v = Ok event ->
  did (serve (do_POST req) rt) = [Entered event].
Proof.
  intros Hp Hf Hj Hg.
  destruct (h event capture) as [[result|e] io] eqn:Hh.
  - destruct (getvalue (sys_stdout io)) as [out|e1] eqn:Ho.
    + destruct (getvalue (sys_stderr io)) as [err|e2] eqn:He.
      * erewrite invoke_returns_reply by eassumption.
        unfold returned. now destruct (unencodable result).
      * erewrite (invoke_getvalue_fails_reply rt req h v event result io e2);
          try eassumption; [reflexivity | now rewrite Ho].
    + erewrite (invoke_getvalue_fails_reply rt req h v event result io e1);
        try eassumption; [reflexivity | now rewrite Ho].
  - erewrite invoke_raises_reply by eassumption. reflexivity.
Qed.

(** *** load_function *)

Lemma load_function_runs (w : World) :
  load_function w =
  (fst (load (runtime w)),
   mkWorld (snd (load (runtime w))) (logs w) (wire w) (trace w ++ [Loading])).
Proof.
  unfold load, load_function, try_except. run.
  destruct (code_file (runtime w)) as [source|]; run; [|reflexivity].
  destruct (exec_module source) as [module|e]; run; [|reflexivity].
  destruct (getattr module FUNCTION_HANDLER) as [attr|]; run; [|reflexivity].
  destruct (callable attr); reflexivity.
Qed.

Lemma load_not_found (rt : Runtime) :
  code_file rt = None ->
  load rt =
  (Ok false,
   set_load_error (Some (py "Function code not found at " ++ FUNCTION_CODE_PATH)) rt).
Proof.
  intros H. unfold load, load_function, try_except. run. now rewrite H.
Qed.

Lemma load_exec_raises (rt : Runtime) (source : str) (e : Exc) :
  code_file rt = Some source ->
  exec_module source = Raise e ->
  load rt = (Ok false, set_load_error (Some (exc_str e)) rt).
Proof.
  intros H He. unfold load, load_function, try_except. run. rewrite H. run.
  now rewrite He.
Qed.

Lemma load_handler_missing (rt : Runtime) (source : str) (module : namespace) :
  code_file rt = Some source ->
  exec_module source = Ok module ->
  getattr module FUNCTION_HANDLER = None ->
  load rt =
  (Ok false,
   set_load_error
     (Some (py "Handler '" ++ FUNCTION_HANDLER ++ py "' not found in module")) rt).
Proof.
  intros H He Hg. unfold load, load_function, try_except. run. rewrite H. run.
  rewrite He. run. now rewrite Hg.
Qed.

(** The entry point is bound before it is tested: an attribute that is
    not callable replaces whatever [handler_func] held. *)
Lemma load_not_callable (rt : Runtime) (source : str) (module : namespace) (attr : pyobj) :
  code_file rt = Some source ->
  exec_module source = Ok module ->
  getattr module FUNCTION_HANDLER = Some attr ->
  callable attr = false ->
  load rt =
  (Ok false,
   set_load_error
     (Some (py "Handler '" ++ FUNCTION_HANDLER ++ py "' is not callable"))
     (set_handler_func attr rt)).
Proof.
  intros H He Hg Hc. unfold load, load_function, try_except. run. rewrite H. run.
  rewrite He. run. rewrite Hg. run. now rewrite Hc.
Qed.

Lemma load_succeeds (rt : Runtime) (source : str) (module : namespace) (h : callable_t) :
  code_file rt = Some source ->
  exec_module source = Ok module ->
  getattr module FUNCTION_HANDLER = Some (PyFunc h) ->
  load rt = (Ok true, set_load_error None (set_handler_func (PyFunc h) rt)).
Proof.
  intros H He Hg. unfold load, load_function, try_except. run. rewrite H. run.
  rewrite He. run. now rewrite Hg.
Qed.

Lemma load_returns (rt : Runtime) :
  exists (b : bool) (rt' : Runtime),
    load rt = (Ok b, rt') /\ (b = true <-> load_error rt' = None).
Proof.
  destruct (code_file rt) as [source|] eqn:H.
  - destruct (exec_module source) as [module|e] eqn:He.
    + destruct (getattr module FUNCTION_HANDLER) as [attr|] eqn:Hg.
      * destruct attr as [|h|t].
        -- eexists _, _. split; [now eapply load_not_callable; eauto|].
           split; discriminate.
        -- eexists _, _. split; [now eapply load_succeeds; eauto|].
           split; reflexivity.
        -- eexists _, _. split; [now eapply load_not_callable; eauto|].
           split; discriminate.
      * eexists _, _. split; [now eapply load_handler_missing; eauto|].
        split; discriminate.
    + eexists _, _. split; [now eapply load_exec_raises; eauto|].
      split; discriminate.
  - eexists _, _. split; [now apply load_not_found|]. split; discriminate.
Qed.

(** *** /reload and /write-code *)

Lemma reload_reply (rt rt' : Runtime) (req : Request) (b : bool) :
  path req = py "/reload" ->
  load rt = (Ok b, rt') ->
  serve (do_POST req) rt =
  mkReply rt' [Head (if b then 200 else 500); Body (reload_envelope b (load_error rt'))]
          [Loading] None.
Proof.
  intros Hp Hl. unfold serve. on_path Hp.
  unfold bind at 1. rewrite load_function_runs. cbn [runtime]. rewrite Hl. run.
  reflexivity.
Qed.

Lemma write_code_rejected_reply (rt : Runtime) (req : Request) (e : Exc) :
  path req = py "/write-code" ->
  match json_loads (read_body req) with
  | Raise e' => e' = e
  | Ok v => py_get v (py "code") VNone = Raise e
  end ->
  serve (do_POST req) rt =
  mkReply rt [Head 500; Body (VDict [(py "error", VStr (exc_str e))])] [] None.
Proof.
  intros Hp Hj. unfold serve. on_path Hp. unfold try_except. run.
  destruct (json_loads (read_body req)) as [v|e'].
  - run. rewrite Hj. run. reflexivity.
  - subst e'. run. reflexivity.
Qed.

Lemma write_code_falsy_reply (rt : Runtime) (req : Request) (v code : value) :
  path req = py "/write-code" ->
  json_loads (read_body req) = Ok v ->
  py_get v (py "code") VNone = Ok code ->
  truthy code = false ->
  serve (do_POST req) rt =
  mkReply rt [Head 400; Body (VDict [(py "error", VStr (py "Missing code field"))])]
          [] None.
Proof.
  intros Hp Hj Hg Ht. unfold serve. on_path Hp. unfold try_except. run.
  rewrite Hj. run. rewrite Hg. run. rewrite Ht. run. reflexivity.
Qed.

Lemma write_code_disk_fault_reply (rt : Runtime) (req : Request) (v code : value) (e : Exc) :
  path req = py "/write-code" ->
  json_loads (read_body req) = Ok v ->
  py_get v (py "code") VNone = Ok code ->
  truthy code = true ->
  disk_fault rt = Some e ->
  serve (do_POST req) rt =
  mkReply rt [Head 500; Body (VDict [(py "error", VStr (exc_str e))])] [] None.
Proof.
  intros Hp Hj Hg Ht Hd. unfold serve. on_path Hp. unfold try_except, write_code. run.
  rewrite Hj. run. rewrite Hg. run. rewrite Ht. run. rewrite Hd. run. reflexivity.
Qed.

(** A truthy [code] that is not a string reaches [f.write] after the file
    has been truncated. *)
Lemma write_code_not_text_reply (rt : Runtime) (req : Request) (v code : value) :
  path req = py "/write-code" ->
  json_loads (read_body req) = Ok v ->
  py_get v (py "code") VNone = Ok code ->
  truthy code = true ->
  disk_fault rt = None ->
  (forall text, code <> VStr text) ->
  serve (do_POST req) rt =
  mkReply (set_code_file (Some []) rt)
          [Head 500;
           Body (VDict [(py "error",
                         VStr (py "write() argument must be str, not " ++ type_name code))])]
          [Opened] None.
Proof.
  intros Hp Hj Hg Ht Hd Hn. unfold serve. on_path Hp. unfold try_except, write_code. run.
  rewrite Hj. run. rewrite Hg. run. rewrite Ht. run. rewrite Hd. run.
  destruct code; try reflexivity. now elim (Hn s).
Qed.

Lemma write_code_reload_reply (rt rt' : Runtime) (req : Request) (v : value)
      (text : str) (b : bool) :
  path req = py "/write-code" ->
  json_loads (read_body req) = Ok v ->
  py_get v (py "code") VNone = Ok (VStr text) ->
  nonempty text = true ->
  disk_fault rt = None ->
  load (set_code_file (Some text) rt) = (Ok b, rt') ->
  serve (do_POST req) rt =
  mkReply rt' [Head (if b then 200 else 500); Body (reload_envelope b (load_error rt'))]
          [Opened; Wrote text; Loading] None.
Proof.
  intros Hp Hj Hg Ht Hd Hl. unfold serve. on_path Hp. unfold try_except, write_code. run.
  rewrite Hj. run. rewrite Hg. run. rewrite Ht. run. rewrite Hd. run.
  rewrite load_function_runs. cbn [runtime].
  change (set_code_file (Some text) (set_code_file (Some []) rt))
    with (set_code_file (Some text) rt).
  rewrite Hl. run. reflexivity.
Qed.

End Equations.

(** ** The claims *)

Section Claims.

Context {host : Host}.

(** C1 (as the code has it).  A load attempt that fails because the source
    file is absent, because executing it raises, or because the entry
    point is missing returns false, records the message, and leaves the
    handler slot as it was.  A later invoke is rejected as not loaded only
    when no handler was loaded before the attempt; a handler loaded
    earlier is kept and is still entered, with the event of the request. *)
Theorem failed_load_keeps_slot (rt : Runtime) (msg : str) :
  load_failure rt msg ->
  let rt' := set_load_error (Some msg) rt in
  load rt = (Ok false, rt')
  /\ handler_func rt' = handler_func rt
  /\ forall req : Request,
       path req = py "/invoke" ->
       (handler_func rt = PyNone ->
        serve (do_POST req) rt' =
        mkReply rt' [Head 500; Body (not_loaded_envelope (Some msg))] [] None)
       /\ (forall (h : callable_t) (items : list (str * value)),
             handler_func rt = PyFunc h ->
             json_loads (read_body req) = Ok (VDict items) ->
             did (serve (do_POST req) rt') = [Entered (event_of items)]).
Proof.
  intros Hfail rt'. split; [|split; [reflexivity|]].
  - destruct Hfail as [H | source e H He | source module H He Hg].
    + now apply load_not_found.
    + now apply load_exec_raises with source.
    + now apply load_handler_missing with source module.
  - intros req Hp. split.
    + intros Hnone. now apply invoke_not_loaded_reply.
    + intros h items Hf Hj.
      apply invoke_enters with h (VDict items); auto.
Qed.

(** C3 (as the code has it).  While a callable handler is loaded, a POST
    /invoke whose body decodes to a JSON object enters the handler with the
    object's [event] field when it has one and with the whole object
    otherwise.  A body that decodes to anything else (array, string,
    number, boolean, null) does not reach the handler: the request is
    answered 500 with the error envelope of the AttributeError. *)
Theorem event_taken_from_object_body (rt : Runtime) (req : Request)
        (h : callable_t) (v : value) :
  path req = py "/invoke" ->
  handler_func rt = PyFunc h ->
  json_loads (read_body req) = Ok v ->
  let reply := serve (do_POST req) rt in
  match v with
  | VDict items =>
      did reply =
      [Entered (match lookup (py "event") items with Some e => e | None => v end)]
  | _ =>
      did reply = []
      /\ sent reply =
         [Head 500;
          Body (error_envelope (duration_ms rt)
                  (AttributeError
                     (py "'" ++ type_name v ++ py "' object has no attribute 'get'"))
                  [])]
  end.
Proof.
  intros Hp Hf Hj reply. subst reply.
  assert (Hn : is_None (handler_func rt) = false) by now rewrite Hf.
  destruct v;
    try (erewrite invoke_not_object_reply by (try eassumption; reflexivity);
         split; reflexivity).
  apply invoke_enters with h (VDict items); auto.
Qed.

(** C5 (as the code has it).  A POST /invoke that arrives while no handler
    is loaded is answered 500 at once: nothing is entered, the clock is
    not read and no duration is reported, and the state is untouched.  The
    error message is the recorded load error when there is a non-empty
    one, and "Function not loaded" otherwise. *)
Theorem invoke_while_not_loaded (rt : Runtime) (req : Request) :
  path req = py "/invoke" ->
  handler_func rt = PyNone ->
  let reply := serve (do_POST req) rt in
  reply = mkReply rt [Head 500; Body (not_loaded_envelope (load_error rt))] [] None
  /\ field "status" (sent reply) = Some (VStr (py "error"))
  /\ field "duration_ms" (sent reply) = None
  /\ field "error" (sent reply) =
     Some (VStr (match load_error rt with
                 | Some (c :: s) => c :: s
                 | _ => py "Function not loaded"
                 end))
  /\ mentions (py "not loaded") (py "Function not loaded") = true.
Proof.
  intros Hp Hf reply. subst reply.
  rewrite (invoke_not_loaded_reply rt req Hp Hf).
  repeat split; reflexivity.
Qed.

(** C6 (as the code has it).  When the handler returns normally, the log
    lines attached to the answer are: the text written to the normal
    channel, if it is not empty, with the whitespace at both ends of the
    whole text removed and then split at line feeds; followed by the text
    of the error channel treated the same way, each line prefixed with
    "[ERROR] ".  All normal-channel lines precede all error-channel lines,
    whatever the order of the writes. *)
Theorem logs_after_normal_return (rt : Runtime) (req : Request) (v event result : value)
        (script : list (channel * str)) (outcome : value -> Result value) :
  path req = py "/invoke" ->
  handler_func rt = PyFunc (scripted script outcome) ->
  json_loads (read_body req) = Ok v ->
  py_get v (py "event") v = Ok event ->
  outcome event = Ok result ->
  field "logs" (sent (serve (do_POST req) rt)) =
  Some (VList (map VStr
     ((if nonempty (written Out script)
       then split_nl (strip (written Out script)) else [])
      ++ map (app (py "[ERROR] "))
           (if nonempty (written Err script)
            then split_nl (strip (written Err script)) else [])))).
Proof.
  intros Hp Hf Hj Hg Ho.
  assert (Hh : scripted script outcome event capture =
               (Ok result, mkSys (StringIO (written Out script))
                                 (StringIO (written Err script)))).
  { unfold scripted, capture. now rewrite Ho, play_capture. }
  rewrite (invoke_returns_reply rt req _ v event result _ _ _ Hp Hf Hj Hg Hh
             eq_refl eq_refl).
  unfold returned. destruct (unencodable result); reflexivity.
Qed.

(** C7.  Whatever a POST /invoke does -- rejected, undecodable, handler not
    callable, handler returned, handler raised, handler replaced the
    streams -- [do_POST] returns, and [sys.stdout] and [sys.stderr] are
    then the streams that were installed before the request. *)
Theorem invoke_restores_streams (rt : Runtime) (req : Request) :
  path req = py "/invoke" ->
  let reply := serve (do_POST req) rt in
  sys_stdout (sys (after reply)) = sys_stdout (sys rt)
  /\ sys_stderr (sys (after reply)) = sys_stderr (sys rt)
  /\ escaped reply = None.
Proof.
  intros Hp reply. subst reply.
  destruct (handler_func rt) as [|h|t] eqn:Hf.
  - rewrite (invoke_not_loaded_reply rt req Hp Hf). repeat split.
  - assert (Hn : is_None (handler_func rt) = false) by now rewrite Hf.
    destruct (json_loads (read_body req)) as [v|e] eqn:Hj.
    + destruct (py_get v (py "event") v) as [event|e] eqn:Hg.
      * destruct (h event capture) as [[result|e] io] eqn:Hh.
        -- destruct (getvalue (sys_stdout io)) as [out|e1] eqn:Ho.
           ++ destruct (getvalue (sys_stderr io)) as [err|e2] eqn:He.
              ** erewrite invoke_returns_reply by eassumption.
                 unfold returned. destruct (unencodable result); repeat split.
              ** erewrite (invoke_getvalue_fails_reply rt req h v event result io e2);
                   try eassumption; [repeat split | now rewrite Ho].
           ++ erewrite (invoke_getvalue_fails_reply rt req h v event result io e1);
                try eassumption; [repeat split | now rewrite Ho].
        -- erewrite invoke_raises_reply by eassumption. repeat split.
      * erewrite invoke_not_object_reply by eassumption. repeat split.
    + erewrite invoke_undecodable_reply by eassumption. repeat split.
  - assert (Hn : is_None (handler_func rt) = false) by now rewrite Hf.
    destruct (json_loads (read_body req)) as [v|e] eqn:Hj.
    + destruct (py_get v (py "event") v) as [event|e] eqn:Hg.
      * erewrite invoke_not_callable_reply by eassumption. repeat split.
      * erewrite invoke_not_object_reply by eassumption. repeat split.
    + erewrite invoke_undecodable_reply by eassumption. repeat split.
Qed.

(** C8.  A POST /write-code whose JSON object body has no [code] field is
    answered 400 and changes nothing: the source file, the loaded handler,
    the recorded load error and the rest of the state are as before, no
    load is attempted, and every later request is served as it would have
    been. *)
Theorem write_code_without_code (rt : Runtime) (req : Request)
        (items : list (str * value)) :
  path req = py "/write-code" ->
  json_loads (read_body req) = Ok (VDict items) ->
  lookup (py "code") items = None ->
  let reply := serve (do_POST req) rt in
  reply = mkReply rt [Head 400; Body (VDict [(py "error", VStr (py "Missing code field"))])]
                  [] None
  /\ forall next : Request, serve (do_POST next) (after reply) = serve (do_POST next) rt.
Proof.
  intros Hp Hj Hl reply. subst reply.
  rewrite (write_code_falsy_reply rt req (VDict items) VNone Hp Hj);
    [split; reflexivity | | reflexivity].
  unfold py_get. now rewrite Hl.
Qed.

(** C9.  [load_function] always returns, and it returns true exactly when
    the load error it leaves is None -- whatever error was recorded
    before.  Hence the answer to /reload, and the answer to a /write-code
    that wrote the code and reloaded, carry [success] true exactly when
    [error] is null. *)
Theorem load_result_matches_error (rt : Runtime) :
  (exists (b : bool) (rt' : Runtime),
      load rt = (Ok b, rt') /\ (b = true <-> load_error rt' = None)
      /\ forall req : Request,
           path req = py "/reload" ->
           serve (do_POST req) rt =
           mkReply rt' [Head (if b then 200 else 500);
                        Body (VDict [(py "success", VBool b);
                                     (py "error", opt_str (load_error rt'))])]
                   [Loading] None)
  /\ (forall (req : Request) (items : list (str * value)) (text : str),
        path req = py "/write-code" ->
        json_loads (read_body req) = Ok (VDict items) ->
        lookup (py "code") items = Some (VStr text) ->
        text <> [] ->
        disk_fault rt = None ->
        exists (b : bool) (rt' : Runtime),
          load (set_code_file (Some text) rt) = (Ok b, rt')
          /\ (b = true <-> load_error rt' = None)
          /\ serve (do_POST req) rt =
             mkReply rt' [Head (if b then 200 else 500);
                          Body (VDict [(py "success", VBool b);
                                       (py "error", opt_str (load_error rt'))])]
                     [Opened; Wrote text; Loading] None).
Proof.
  split.
  - destruct (load_returns rt) as (b & rt' & Hl & Hiff).
    exists b, rt'. split; [exact Hl | split; [exact Hiff |]].
    intros req Hp. now apply reload_reply.
  - intros req items text Hp Hj Hl Ht Hd.
    destruct (load_returns (set_code_file (Some text) rt)) as (b & rt' & Hload & Hiff).
    exists b, rt'. split; [exact Hload | split; [exact Hiff |]].
    apply write_code_reload_reply with (v := VDict items); auto.
    + unfold py_get. now rewrite Hl.
    + destruct text; [contradiction | reflexivity].
Qed.

(** C10.  A POST /write-code whose object body has a [code] field with a
    falsy value (the empty string, null, false, 0, and likewise 0.0, an
    empty array or an empty object) is answered exactly like one without
    the field: 400 with "Missing code field"; the source file is not
    written and no load is attempted. *)
Theorem write_code_with_falsy_code (rt : Runtime) (req : Request)
        (items : list (str * value)) (code : value) :
  path req = py "/write-code" ->
  json_loads (read_body req) = Ok (VDict items) ->
  lookup (py "code") items = Some code ->
  truthy code = false ->
  serve (do_POST req) rt =
  mkReply rt [Head 400; Body (VDict [(py "error", VStr (py "Missing code field"))])]
          [] None.
Proof.
  intros Hp Hj Hl Ht.
  apply write_code_falsy_reply with (VDict items) code; auto.
  unfold py_get. now rewrite Hl.
Qed.

End Claims.

(** ** The claims on the concrete host *)

Section Examples.

Import Demo.

(** C1, as stated, fails.  A handler is loaded, the source file then
    disappears, and a reload fails: the slot still holds the old handler,
    and the next invoke enters it and answers 200 with its result. *)
Lemma failed_reload_keeps_old_handler :
  let rt := set_code_file None (serving "handler = lambda event: 1") in
  let rt' := snd (load rt) in
  let reply := serve (do_POST (post "/invoke" (py "{}"))) rt' in
  fst (load rt) = Ok false
  /\ handler_func rt' = PyFunc version_a
  /\ is_None (handler_func rt') = false
  /\ did reply = [Entered (VDict [])]
  /\ sent reply = [Head 200; Body (success_envelope 1 (VInt 1) [])].
Proof. vm_compute. repeat split. Qed.

(** C1, witness: the same failed reload. *)
Lemma failed_load_keeps_slot_witness :
  let rt := set_code_file None (serving "handler = lambda event: 1") in
  let msg := py "Function code not found at /function/code.py" in
  load_failure rt msg
  /\ load rt = (Ok false, set_load_error (Some msg) rt)
  /\ handler_func (set_load_error (Some msg) rt) = handler_func rt.
Proof.
  intros rt msg.
  assert (H : load_failure rt msg) by exact (@SourceNotFound Demo.host rt eq_refl).
  split; [exact H|].
  destruct (failed_load_keeps_slot rt msg H) as (Hl & Hh & _).
  split; [exact Hl | exact Hh].
Defined.

(** The remaining way a load fails.  The new source binds [handler] to
    the number 5: the load returns false, yet the slot now holds that
    number; the next invoke gets past the not-loaded test and fails at
    the call. *)
Example not_callable_entry_point_is_bound :
  let rt := set_code_file (Some (py "handler = 5"))
                          (serving "handler = lambda event: 1") in
  let rt' := snd (load rt) in
  let reply := serve (do_POST (post "/invoke" (py "{}"))) rt' in
  fst (load rt) = Ok false
  /\ handler_func rt' = PyData (py "int")
  /\ load_error rt' = Some (py "Handler 'handler' is not callable")
  /\ did reply = []
  /\ status (sent reply) = Some 500%Z
  /\ field "error" (sent reply) = Some (VStr (py "'int' object is not callable")).
Proof. vm_compute. repeat split. Qed.

(** What /health reports after the failed reload of C1: code loaded, and
    an error. *)
Example health_after_failed_reload :
  let rt := snd (load (set_code_file None (serving "handler = lambda event: 1"))) in
  let reply := serve (do_GET (mkRequest (py "/health") 0 [])) rt in
  status (sent reply) = Some 200%Z
  /\ field "codeLoaded" (sent reply) = Some (VBool true)
  /\ field "error" (sent reply)
     = Some (VStr (py "Function code not found at /function/code.py")).
Proof. vm_compute. repeat split. Qed.

(** C2, at the failing input.  The loaded handler prints "hello" and then
    raises Exception('boom'): the answer is the 500 error envelope with
    the message and the stack, and its log lines are empty -- the captured
    "hello" is not attached. *)
Lemma faulting_handler_logs_are_empty :
  let rt := serving "def handler(event): print('hello'); raise Exception('boom')" in
  let reply := serve (do_POST (post "/invoke" (dq "{'event': {'x': 1}}"))) rt in
  handler_func rt = PyFunc hello_boom
  /\ written Out [(Out, py "hello"); (Out, LF)] = py "hello" ++ LF
  /\ did reply = [Entered (VDict [(py "x", VInt 1)])]
  /\ status (sent reply) = Some 500%Z
  /\ field "error" (sent reply) = Some (VStr (py "boom"))
  /\ field "logs" (sent reply) = Some (VList [])
  /\ field "logs" (sent reply) <> Some (VList [VStr (py "hello")]).
Proof. vm_compute. repeat split. discriminate. Qed.

(** C3, as stated, fails.  The body [[1, 2]] is valid JSON, but the handler
    is not entered: the request is answered 500. *)
Lemma bare_array_never_reaches_handler :
  let rt := serving "def handler(event): return event" in
  let req := post "/invoke" (py "[1, 2]") in
  let reply := serve (do_POST req) rt in
  handler_func rt = PyFunc echo
  /\ json_loads (read_body req) = Ok (VList [VInt 1; VInt 2])
  /\ did reply = []
  /\ status (sent reply) = Some 500%Z
  /\ field "error" (sent reply) = Some (VStr (py "'list' object has no attribute 'get'")).
Proof. vm_compute. repeat split. Qed.

(** C3, witness: object bodies with an [event] field, with a null one and
    with none, and a bare number. *)
Lemma event_taken_from_object_body_witness :
  let rt := serving "def handler(event): return event" in
  did (serve (do_POST (post "/invoke" (dq "{'event': {'x': 1}}"))) rt)
  = [Entered (VDict [(py "x", VInt 1)])]
  /\ did (serve (do_POST (post "/invoke" (dq "{'event': null}"))) rt)
     = [Entered VNone]
  /\ did (serve (do_POST (post "/invoke" (dq "{'x': 1}"))) rt)
     = [Entered (VDict [(py "x", VInt 1)])]
  /\ did (serve (do_POST (post "/invoke" (py "7"))) rt) = [].
Proof.
  intros rt.
  assert (H1 : json_loads (read_body (post "/invoke" (dq "{'event': {'x': 1}}")))
               = Ok (VDict [(py "event", VDict [(py "x", VInt 1)])]))
    by (vm_compute; reflexivity).
  assert (H2 : json_loads (read_body (post "/invoke" (dq "{'event': null}")))
               = Ok (VDict [(py "event", VNone)]))
    by (vm_compute; reflexivity).
  assert (H3 : json_loads (read_body (post "/invoke" (dq "{'x': 1}")))
               = Ok (VDict [(py "x", VInt 1)]))
    by (vm_compute; reflexivity).
  assert (H4 : json_loads (read_body (post "/invoke" (py "7"))) = Ok (VInt 7))
    by (vm_compute; reflexivity).
  repeat apply conj.
  - exact (event_taken_from_object_body
             rt (post "/invoke" (dq "{'event': {'x': 1}}")) echo _ eq_refl eq_refl H1).
  - exact (event_taken_from_object_body
             rt (post "/invoke" (dq "{'event': null}")) echo _ eq_refl eq_refl H2).
  - exact (event_taken_from_object_body
             rt (post "/invoke" (dq "{'x': 1}")) echo _ eq_refl eq_refl H3).
  - exact (proj1 (event_taken_from_object_body
                    rt (post "/invoke" (py "7")) echo _ eq_refl eq_refl H4)).
Defined.

(** C5, as stated, fails.  The server started without a source file: no
    handler is loaded, and the message of the 500 answer is the recorded
    load error, which does not mention "not loaded". *)
Lemma not_loaded_answer_carries_load_error :
  let rt := snd (load (boot None)) in
  let reply := serve (do_POST (post "/invoke" (py "{}"))) rt in
  handler_func rt = PyNone
  /\ status (sent reply) = Some 500%Z
  /\ field "error" (sent reply)
     = Some (VStr (py "Function code not found at /function/code.py"))
  /\ mentions (py "not loaded") (py "Function code not found at /function/code.py")
     = false.
Proof. vm_compute. repeat split. Qed.

(** C5, witness: the same state. *)
Lemma invoke_while_not_loaded_witness :
  let rt := snd (load (boot None)) in
  let req := post "/invoke" (py "{}") in
  handler_func rt = PyNone
  /\ serve (do_POST req) rt
     = mkReply rt [Head 500; Body (not_loaded_envelope (load_error rt))] [] None.
Proof.
  intros rt req. split; [reflexivity|].
  exact (proj1 (invoke_while_not_loaded rt req eq_refl eq_refl)).
Defined.

(** C6, as stated, fails.  The handler prints "  a": the specification's
    wording keeps the leading blanks, the code removes them. *)
Lemma leading_whitespace_is_stripped :
  let script := [(Out, py "  a"); (Out, LF)] in
  let rt := serving "def handler(event): print('  a')" in
  let reply := serve (do_POST (post "/invoke" (py "{}"))) rt in
  handler_func rt = PyFunc (scripted script (fun _ => Ok VNone))
  /\ status (sent reply) = Some 200%Z
  /\ field "logs" (sent reply) = Some (VList [VStr (py "a")])
  /\ spec_logs script = [py "  a"]
  /\ code_logs script <> spec_logs script.
Proof. vm_compute. repeat split. discriminate. Qed.

(** C6, witness: writes to the two channels in alternation. *)
Lemma logs_after_normal_return_witness :
  let script := [(Err, py "e1" ++ LF); (Out, py "o1" ++ LF);
                 (Err, py "e2" ++ LF); (Out, py " o2 " ++ LF)] in
  let rt := set_handler_func (PyFunc (scripted script (fun _ => Ok VNone)))
                             (serving "def handler(event): return event") in
  field "logs" (sent (serve (do_POST (post "/invoke" (py "{}"))) rt))
  = Some (VList [VStr (py "o1"); VStr (py " o2");
                 VStr (py "[ERROR] e1"); VStr (py "[ERROR] e2")]).
Proof.
  intros script rt.
  exact (logs_after_normal_return rt (post "/invoke" (py "{}")) (VDict []) (VDict []) VNone
           script (fun _ => Ok VNone) eq_refl eq_refl eq_refl eq_refl eq_refl).
Defined.

(** C7, witness: a handler that prints and then raises. *)
Lemma invoke_restores_streams_witness :
  let rt := serving "def handler(event): print('hello'); raise Exception('boom')" in
  let reply := serve (do_POST (post "/invoke" (py "{}"))) rt in
  sys_stdout (sys (after reply)) = Console 1
  /\ sys_stderr (sys (after reply)) = Console 2
  /\ escaped reply = None.
Proof.
  intros rt reply.
  exact (invoke_restores_streams rt (post "/invoke" (py "{}")) eq_refl).
Defined.

(** C8, witness: a body with another field, while a handler is loaded. *)
Lemma write_code_without_code_witness :
  let rt := serving "handler = lambda event: 1" in
  let reply := serve (do_POST (post "/write-code" (dq "{'note': 'x'}"))) rt in
  reply = mkReply rt [Head 400; Body (VDict [(py "error", VStr (py "Missing code field"))])]
                  [] None
  /\ did (serve (do_POST (post "/invoke" (py "{}"))) (after reply)) = [Entered (VDict [])].
Proof.
  intros rt reply.
  pose (req := post "/write-code" (dq "{'note': 'x'}")).
  assert (Hj : json_loads (read_body req) = Ok (VDict [(py "note", VStr (py "x"))]))
    by (vm_compute; reflexivity).
  destruct (write_code_without_code rt req [(py "note", VStr (py "x"))]
              eq_refl Hj eq_refl) as (Hr & Hnext).
  split; [exact Hr|].
  transitivity (did (serve (do_POST (post "/invoke" (py "{}"))) rt));
    [exact (f_equal did (Hnext _)) | reflexivity].
Defined.

(** C9, witness: the server started without a source file, so that a load
    error is recorded; a /write-code with version B of the code then
    reloads. *)
Lemma load_result_matches_error_witness :
  let rt := snd (load (boot None)) in
  let req := post "/write-code" (dq "{'code': 'handler = lambda event: 2'}") in
  load_error rt <> None
  /\ exists (b : bool) (rt' : Runtime),
       load (set_code_file (Some (py "handler = lambda event: 2")) rt) = (Ok b, rt')
       /\ (b = true <-> load_error rt' = None)
       /\ sent (serve (do_POST req) rt)
          = [Head (if b then 200 else 500);
             Body (VDict [(py "success", VBool b);
                          (py "error", opt_str (load_error rt'))])].
Proof.
  intros rt req. split; [discriminate|].
  assert (Hj : json_loads (read_body req)
               = Ok (VDict [(py "code", VStr (py "handler = lambda event: 2"))]))
    by (vm_compute; reflexivity).
  destruct (proj2 (load_result_matches_error rt) req _
                  (py "handler = lambda event: 2") eq_refl Hj eq_refl)
    as (b & rt' & Hl & Hiff & Hs).
  - discriminate.
  - reflexivity.
  - exists b, rt'. split; [exact Hl | split; [exact Hiff |]].
    now rewrite Hs.
Defined.

(** C10, witness: [code] is the empty string, and [code] is 0. *)
Lemma write_code_with_falsy_code_witness :
  let rt := serving "handler = lambda event: 1" in
  let missing := [Head 400; Body (VDict [(py "error", VStr (py "Missing code field"))])] in
  serve (do_POST (post "/write-code" (dq "{'code': ''}"))) rt = mkReply rt missing [] None
  /\ serve (do_POST (post "/write-code" (dq "{'code': 0}"))) rt = mkReply rt missing [] None.
Proof.
  intros rt missing.
  assert (H1 : json_loads (read_body (post "/write-code" (dq "{'code': ''}")))
               = Ok (VDict [(py "code", VStr [])]))
    by (vm_compute; reflexivity).
  assert (H2 : json_loads (read_body (post "/write-code" (dq "{'code': 0}")))
               = Ok (VDict [(py "code", VInt 0)]))
    by (vm_compute; reflexivity).
  split.
  - exact (write_code_with_falsy_code rt (post "/write-code" (dq "{'code': ''}"))
             _ (VStr []) eq_refl H1 eq_refl eq_refl).
  - exact (write_code_with_falsy_code rt (post "/write-code" (dq "{'code': 0}"))
             _ (VInt 0) eq_refl H2 eq_refl eq_refl).
Defined.

End Examples.

(** * Further properties of the server *)

(** ** Captured text *)

Lemma split_nl_not_nil (s : str) : split_nl s <> [].
Proof.
  destruct s as [|c s]; simpl; [discriminate|].
  destruct (c =? 10); [discriminate|].
  destruct (split_nl s); discriminate.
Qed.

Lemma split_nl_join (s : str) : join [10] (split_nl s) = s.
Proof.
  induction s as [|c s IH]; [reflexivity|].
  simpl. destruct (c =? 10) eqn:Hc.
  - apply N.eqb_eq in Hc. subst c.
    destruct (split_nl s) as [|l ls] eqn:Hs; [now elim (split_nl_not_nil s)|].
    simpl. simpl in IH. now rewrite IH.
  - destruct (split_nl s) as [|l ls] eqn:Hs; [now elim (split_nl_not_nil s)|].
    destruct ls as [|l' ls]; simpl in *; now rewrite IH.
Qed.

Lemma split_nl_pieces (s : str) :
  Forall (fun piece => has_line_feed piece = false) (split_nl s).
Proof.
  induction s as [|c s IH]; simpl.
  - now constructor.
  - destruct (c =? 10) eqn:Hc.
    + now constructor.
    + assert (H10 : (10 =? c) = false) by (rewrite N.eqb_sym; exact Hc).
      destruct (split_nl s) as [|l ls].
      * constructor; [|constructor].
        unfold has_line_feed. cbn [existsb]. now rewrite H10.
      * inversion IH as [|? ? Hl Hls]; subst. constructor; [|assumption].
        unfold has_line_feed in *. cbn [existsb]. now rewrite H10.
Qed.

Lemma lstrip_split (s : str) :
  exists pre, s = pre ++ lstrip s /\ all_space pre = true
              /\ space_char (first_char (lstrip s)) = false.
Proof.
  induction s as [|c s (pre & Hs & Hpre & Hfirst)].
  - exists []. repeat split.
  - simpl. destruct (isspace c) eqn:Hc.
    + exists (c :: pre). simpl. rewrite Hc, Hpre. repeat split; [congruence | assumption].
    + exists []. simpl. now rewrite Hc.
Qed.

Lemma all_space_rev (s : str) : all_space (rev s) = all_space s.
Proof.
  unfold all_space. induction s as [|c s IH]; [reflexivity|].
  simpl. rewrite forallb_app, IH. simpl. now rewrite andb_true_r, andb_comm.
Qed.

Lemma rstrip_keeps_first (s : str) :
  space_char (first_char s) = false ->
  space_char (first_char (rstrip s)) = false.
Proof.
  intros Hs. unfold rstrip.
  destruct (lstrip_split (rev s)) as (pre & Hrev & Hpre & _).
  assert (Hsplit : s = rev (lstrip (rev s)) ++ rev pre).
  { rewrite <- rev_app_distr, <- Hrev. now rewrite rev_involutive. }
  destruct (rev (lstrip (rev s))) as [|c r]; [reflexivity|].
  rewrite Hsplit in Hs. exact Hs.
Qed.

Lemma lstrip_all_space (s : str) : all_space s = true -> lstrip s = [].
Proof.
  unfold all_space. induction s as [|c s IH]; [reflexivity|].
  simpl. intros H. apply andb_true_iff in H. destruct H as [Hc Hs].
  rewrite Hc. now apply IH.
Qed.

(** X1.  [strip] removes a run of whitespace from each end and nothing
    else: the text is [pre ++ strip text ++ post] with [pre] and [post]
    made of whitespace only, and what is left neither begins nor ends with
    a whitespace character. *)
Theorem strip_removes_only_outer_whitespace (text : str) :
  exists pre post : str,
    text = pre ++ strip text ++ post
    /\ all_space pre = true
    /\ all_space post = true
    /\ space_char (first_char (strip text)) = false
    /\ space_char (last_char (strip text)) = false.
Proof.
  destruct (lstrip_split text) as (pre & Ht & Hpre & Hfirst).
  destruct (lstrip_split (rev (lstrip text))) as (tsop & Hr & Htsop & Hlast).
  exists pre, (rev tsop). unfold strip, rstrip. repeat split.
  - rewrite <- rev_app_distr, <- Hr, rev_involutive. exact Ht.
  - exact Hpre.
  - now rewrite all_space_rev.
  - now apply rstrip_keeps_first.
  - unfold last_char. now rewrite rev_involutive.
Qed.

(** X2.  The lines one channel contributes, for a captured text that is
    not empty: there is at least one, none contains a line feed, and
    joined by line feeds they are exactly the stripped text -- nothing
    inside the text is lost or reordered. *)
Theorem captured_lines_rebuild_text (text : str) :
  text <> [] ->
  captured_lines text <> []
  /\ Forall (fun line => has_line_feed line = false) (captured_lines text)
  /\ join [10] (captured_lines text) = strip text.
Proof.
  intros Hne. unfold captured_lines.
  destruct text as [|c text]; [contradiction|]. cbn [nonempty].
  split; [apply split_nl_not_nil|].
  split; [apply split_nl_pieces | apply split_nl_join].
Qed.

(** X3.  A captured text that is not empty but holds only whitespace (a
    bare [print()], say) contributes one empty line. *)
Theorem blank_output_gives_one_empty_line (text : str) :
  text <> [] ->
  all_space text = true ->
  captured_lines text = [[]].
Proof.
  intros Hne Hs. unfold captured_lines, strip.
  destruct text as [|c text]; [contradiction|]. cbn [nonempty].
  now rewrite (lstrip_all_space _ Hs).
Qed.

(** ** Replies on the remaining paths *)

Section Further.

Context {host : Host}.

Create Rewrite HintDb dumps.
Hint Rewrite dumps_error_envelope dumps_success_envelope dumps_not_loaded_envelope
     dumps_reload_envelope dumps_error_only : dumps.

Lemma health_reply (rt : Runtime) (req : Request) :
  path req = py "/health" ->
  serve (do_GET req) rt = mkReply rt [Head 200; Body (health_body rt)] [] None.
Proof.
  intros Hp. unfold serve, do_GET. rewrite Hp.
  change (str_eqb (py "/health") (py "/health")) with true. cbv iota.
  run. unfold json_dumps, health_body. destruct (load_error rt); reflexivity.
Qed.

Lemma get_not_found_reply (rt : Runtime) (req : Request) :
  str_eqb (path req) (py "/health") = false ->
  serve (do_GET req) rt = mkReply rt [Head 404; Body not_found] [] None.
Proof.
  intros Hp. unfold serve, do_GET. rewrite Hp. run. reflexivity.
Qed.

Lemma post_not_found_reply (rt : Runtime) (req : Request) :
  str_eqb (path req) (py "/write-code") = false ->
  str_eqb (path req) (py "/reload") = false ->
  str_eqb (path req) (py "/invoke") = false ->
  serve (do_POST req) rt = mkReply rt [Head 404; Body not_found] [] None.
Proof.
  intros Hw Hr Hi. unfold serve, do_POST. rewrite Hw, Hr, Hi. run. reflexivity.
Qed.


Lemma invoke_stdout_unreadable_reply (rt : Runtime) (req : Request) (h : callable_t)
      (v event result : value) (io : Sys) (e : Exc) :
  path req = py "/invoke" ->
  handler_func rt = PyFunc h ->
  json_loads (read_body req) = Ok v ->
  py_get v (py "event") v = Ok event ->
  h event capture = (Ok result, io) ->
  getvalue (sys_stdout io) = Raise e ->
  serve (do_POST req) rt =
  mkReply (timed rt) [Head 500; Body (error_envelope (duration_ms rt) e [])]
          [Entered event] None.
Proof.
  intros Hp Hf Hj Hg Hh Ho.
  apply invoke_getvalue_fails_reply with h v result io; auto. now rewrite Ho.
Qed.

Lemma invoke_stderr_unreadable_reply (rt : Runtime) (req : Request) (h : callable_t)
      (v event result : value) (io : Sys) (out : str) (e : Exc) :
  path req = py "/invoke" ->
  handler_func rt = PyFunc h ->
  json_loads (read_body req) = Ok v ->
  py_get v (py "event") v = Ok event ->
  h event capture = (Ok result, io) ->
  getvalue (sys_stdout io) = Ok out ->
  getvalue (sys_stderr io) = Raise e ->
  serve (do_POST req) rt =
  mkReply (timed rt) [Head 500; Body (error_envelope (duration_ms rt) e [])]
          [Entered event] None.
Proof.
  intros Hp Hf Hj Hg Hh Ho He.
  apply invoke_getvalue_fails_reply with h v result io; auto. now rewrite Ho.
Qed.

Lemma write_code_undecodable_reply (rt : Runtime) (req : Request) (e : Exc) :
  path req = py "/write-code" ->
  json_loads (read_body req) = Raise e ->
  serve (do_POST req) rt =
  mkReply rt [Head 500; Body (VDict [(py "error", VStr (exc_str e))])] [] None.
Proof.
  intros Hp Hj. apply write_code_rejected_reply; auto. now rewrite Hj.
Qed.

Lemma write_code_not_object_reply (rt : Runtime) (req : Request) (v : value) (e : Exc) :
  path req = py "/write-code" ->
  json_loads (read_body req) = Ok v ->
  py_get v (py "code") VNone = Raise e ->
  serve (do_POST req) rt =
  mkReply rt [Head 500; Body (VDict [(py "error", VStr (exc_str e))])] [] None.
Proof.
  intros Hp Hj Hg. apply write_code_rejected_reply; auto. now rewrite Hj.
Qed.

Lemma not_none_loaded (rt : Runtime) :
  handler_func rt <> PyNone -> is_None (handler_func rt) = false.
Proof. destruct (handler_func rt); [contradiction | reflexivity | reflexivity]. Qed.

(** Everything a load decides, in one statement. *)
Lemma load_summary (rt : Runtime) :
  exists (b : bool) (rt' : Runtime),
    load rt = (Ok b, rt')
    /\ (b = true <-> load_error rt' = None)
    /\ (load_error rt' = None -> callable (handler_func rt') = true)
    /\ code_file rt' = code_file rt
    /\ disk_fault rt' = disk_fault rt
    /\ sys rt' = sys rt
    /\ ticks rt' = ticks rt.
Proof.
  destruct (code_file rt) as [source|] eqn:H.
  - destruct (exec_module source) as [module|e] eqn:He.
    + destruct (getattr module FUNCTION_HANDLER) as [attr|] eqn:Hg.
      * destruct (callable attr) eqn:Hc.
        -- destruct attr as [|h|t]; try discriminate.
           eexists _, _. split; [eapply load_succeeds; eauto|].
           cbn. repeat split; auto.
        -- eexists _, _. split; [eapply load_not_callable; eauto|].
           cbn. repeat split; auto; discriminate.
      * eexists _, _. split; [eapply load_handler_missing; eauto|].
        cbn. repeat split; auto; discriminate.
    + eexists _, _. split; [eapply load_exec_raises; eauto|].
      cbn. repeat split; auto; discriminate.
  - eexists _, _. split; [now apply load_not_found|].
    cbn. repeat split; auto; discriminate.
Qed.


(** Case analysis of one POST /invoke, resp. one POST on any path: the
    reply is rewritten to its explicit form on every path. *)
Ltac invoke_paths rt req :=
  let Hf := fresh "Hf" in
  destruct (handler_func rt) eqn:Hf;
  [ erewrite invoke_not_loaded_reply by eassumption
  | destruct (json_loads (read_body req)) eqn:?;
    [ match goal with
      | Hj : json_loads (read_body req) = Ok ?v |- _ =>
          destruct (py_get v (py "event") v) eqn:?;
          [ match goal with
            | Hg : py_get v (py "event") v = Ok ?ev, Hh0 : handler_func rt = PyFunc ?h |- _ =>
                destruct (h ev capture) as [[?|?] ?] eqn:?;
                [ match goal with
                  | Hh : h ev capture = (Ok _, ?io) |- _ =>
                      destruct (getvalue (sys_stdout io)) eqn:?;
                      [ destruct (getvalue (sys_stderr io)) eqn:?;
                        [ erewrite invoke_returns_reply by eassumption;
                          unfold returned;
                          match goal with
                          | |- context [unencodable ?r] => destruct (unencodable r) eqn:?
                          end
                        | erewrite invoke_stderr_unreadable_reply by eassumption ]
                      | erewrite invoke_stdout_unreadable_reply by eassumption ]
                  end
                | erewrite invoke_raises_reply by eassumption ]
            end
          | erewrite invoke_not_object_reply
              by first [eassumption | rewrite Hf; reflexivity] ]
      end
    | erewrite invoke_undecodable_reply
        by first [eassumption | rewrite Hf; reflexivity] ]
  | destruct (json_loads (read_body req)) eqn:?;
    [ match goal with
      | Hj : json_loads (read_body req) = Ok ?v |- _ =>
          destruct (py_get v (py "event") v) eqn:?;
          [ erewrite invoke_not_callable_reply by eassumption
          | erewrite invoke_not_object_reply
              by first [eassumption | rewrite Hf; reflexivity] ]
      end
    | erewrite invoke_undecodable_reply
        by first [eassumption | rewrite Hf; reflexivity] ] ].

Ltac reload_path rt req :=
  let b := fresh "b" in
  let rt' := fresh "rt'" in
  let Hl := fresh "Hl" in
  let Hiff := fresh "Hiff" in
  let Hcall := fresh "Hcall" in
  let Hfile := fresh "Hfile" in
  let Hdisk := fresh "Hdisk" in
  let Hsys := fresh "Hsys" in
  let Hticks := fresh "Hticks" in
  destruct (load_summary rt)
    as (b & rt' & Hl & Hiff & Hcall & Hfile & Hdisk & Hsys & Hticks);
  erewrite reload_reply by eassumption.

Ltac write_code_paths rt req :=
  destruct (json_loads (read_body req)) eqn:?;
  [ match goal with
    | Hj : json_loads (read_body req) = Ok ?v |- _ =>
        destruct (py_get v (py "code") VNone) eqn:?;
        [ match goal with
          | Hg : py_get v (py "code") VNone = Ok ?code |- _ =>
              destruct (truthy code) eqn:?;
              [ destruct (disk_fault rt) eqn:?;
                [ erewrite write_code_disk_fault_reply by eassumption
                | destruct code;
                  first
                    [ match goal with
                      | Hs : py_get v (py "code") VNone = Ok (VStr ?text) |- _ =>
                          let b := fresh "b" in
                          let rt' := fresh "rt'" in
                          let Hl := fresh "Hl" in
                          let Hiff := fresh "Hiff" in
                          let Hcall := fresh "Hcall" in
                          let Hfile := fresh "Hfile" in
                          let Hdisk := fresh "Hdisk" in
                          let Hsys := fresh "Hsys" in
                          let Hticks := fresh "Hticks" in
                          destruct (load_summary (set_code_file (Some text) rt))
                            as (b & rt' & Hl & Hiff & Hcall & Hfile & Hdisk & Hsys & Hticks);
                          erewrite write_code_reload_reply by eassumption
                      end
                    | erewrite write_code_not_text_reply
                        by first [eassumption | discriminate] ] ]
              | erewrite write_code_falsy_reply by eassumption ]
          end
        | erewrite write_code_not_object_reply by eassumption ]
    end
  | erewrite write_code_undecodable_reply by eassumption ].

Ltac post_paths rt req :=
  destruct (str_eqb (path req) (py "/write-code")) eqn:?;
  [ match goal with
    | H : str_eqb (path req) (py "/write-code") = true |- _ => apply str_eqb_eq in H
    end;
    write_code_paths rt req
  | destruct (str_eqb (path req) (py "/reload")) eqn:?;
    [ match goal with
      | H : str_eqb (path req) (py "/reload") = true |- _ => apply str_eqb_eq in H
      end;
      reload_path rt req
    | destruct (str_eqb (path req) (py "/invoke")) eqn:?;
      [ match goal with
        | H : str_eqb (path req) (py "/invoke") = true |- _ => apply str_eqb_eq in H
        end;
        invoke_paths rt req
      | erewrite post_not_found_reply by eassumption ] ] ].

Ltac get_paths rt req :=
  destruct (str_eqb (path req) (py "/health")) eqn:?;
  [ match goal with
    | H : str_eqb (path req) (py "/health") = true |- _ => apply str_eqb_eq in H
    end;
    erewrite health_reply by eassumption
  | erewrite get_not_found_reply by eassumption ].

(** A POST whose body has been read is answered with one JSON object,
    under one of the status codes 200, 400, 404, 500, and an answer that
    is not a 200 carries an [error] field holding a string.  The only
    irregular answer is the one for a result that cannot be encoded: its
    500 head and body follow a 200 head that is already on the
    connection. *)
Lemma read_post_is_answered (req : Request) (rt : Runtime) :
  exists (c : Z) (items : list (str * value)),
    (sent (serve (do_POST req) rt) = [Head c; Body (VDict items)]
     \/ (c = 500%Z
         /\ sent (serve (do_POST req) rt) = [Head 200; Head 500; Body (VDict items)]))
    /\ In c [200; 400; 404; 500]%Z
    /\ (c <> 200%Z -> exists msg : str, lookup (py "error") items = Some (VStr msg)).
Proof.
  post_paths rt req;
    try (eexists _, _; split; [left; reflexivity|];
         split; [simpl; tauto |];
         first [ intros _; eexists; reflexivity | intros Hc; now elim Hc ]).
  - (* write-code, reloaded *)
    destruct b.
    + eexists _, _. split; [left; reflexivity|]. split; [simpl; tauto|].
      intros Hc. now elim Hc.
    + eexists _, _. split; [left; reflexivity|]. split; [simpl; tauto|].
      intros _. destruct (load_error rt') as [msg|] eqn:He.
      * exists msg. reflexivity.
      * destruct Hiff as [_ Hiff]. now specialize (Hiff eq_refl).
  - (* reload *)
    destruct b.
    + eexists _, _. split; [left; reflexivity|]. split; [simpl; tauto|].
      intros Hc. now elim Hc.
    + eexists _, _. split; [left; reflexivity|]. split; [simpl; tauto|].
      intros _. destruct (load_error rt') as [msg|] eqn:He.
      * exists msg. reflexivity.
      * destruct Hiff as [_ Hiff]. now specialize (Hiff eq_refl).
  - (* the result cannot be encoded *)
    eexists _, _. split; [right; split; reflexivity|]. split; [simpl; tauto|].
    intros _. eexists. reflexivity.
Qed.

(** X6.  A POST /invoke changes nothing but the clock count: the loaded
    object, the recorded load error, the source file and the streams are
    as before; it opens no file and attempts no load; it enters the user
    function at most once. *)
Theorem invoke_touches_only_the_clock (req : Request) (rt : Runtime) :
  path req = py "/invoke" ->
  (exists n : nat, after (serve (do_POST req) rt) = set_ticks n rt)
  /\ (did (serve (do_POST req) rt) = []
      \/ exists event : value, did (serve (do_POST req) rt) = [Entered event]).
Proof.
  intros Hp. invoke_paths rt req;
    (split;
     [ first [ exists (ticks rt); destruct rt as [? ? ? ? ? ?]; reflexivity
             | eexists; reflexivity ]
     | first [ left; reflexivity | right; eexists; reflexivity ] ]).
Qed.

(** X7.  A path that no branch of the method names is answered 404 with
    the endpoint list, and nothing happens: for GET every path but
    /health, for POST every path but /write-code, /reload and /invoke --
    the comparison is on the whole path, so a query string or a trailing
    slash misses, and so does the path of the other method. *)
Theorem unknown_path_is_not_found (m : Method) (req : Request) (rt : Runtime) :
  match m with
  | GET => path req <> py "/health"
  | POST => path req <> py "/write-code" /\ path req <> py "/reload"
            /\ path req <> py "/invoke"
  end ->
  handle m req rt = mkReply rt [Head 404; Body not_found] [] None.
Proof.
  assert (Hneq : forall a b : str, a <> b -> str_eqb a b = false).
  { intros a b Hab. destruct (str_eqb a b) eqn:E; [|reflexivity].
    apply str_eqb_eq in E. contradiction. }
  unfold handle. destruct m.
  - intros Hp. apply get_not_found_reply. now apply Hneq.
  - intros (Hw & Hr & Hi). apply post_not_found_reply; now apply Hneq.
Qed.


(** ** Loading *)

(** X8.  A source that runs and binds the entry-point name to a callable
    loads: [load_function] returns true, installs that callable and
    clears the error, whatever was there before; /health then reports
    [codeLoaded] true and [error] null. *)
Theorem valid_source_loads_and_reports_healthy
        (rt : Runtime) (source : str) (module : namespace) (h : callable_t)
        (req : Request) :
  code_file rt = Some source ->
  exec_module source = Ok module ->
  getattr module FUNCTION_HANDLER = Some (PyFunc h) ->
  path req = py "/health" ->
  let rt' := set_load_error None (set_handler_func (PyFunc h) rt) in
  load rt = (Ok true, rt')
  /\ serve (do_GET req) rt' =
     mkReply rt'
       [Head 200;
        Body (VDict [(py "status", VStr (py "healthy"));
                     (py "handler", VStr FUNCTION_HANDLER);
                     (py "codeLoaded", VBool true);
                     (py "error", VNone)])]
       [] None.
Proof.
  intros Hfile Hexec Hattr Hp rt'. split.
  - now apply load_succeeds with source module.
  - now rewrite (health_reply rt' req Hp).
Qed.

(** X9.  The entry point is bound before it is tested.  When the source
    binds the name to something that is not callable, the load returns
    false and records "Handler '...' is not callable", but that object is
    now in the slot and the previous handler is gone.  If the object is
    not None, the next invoke gets past the not-loaded test and is
    answered with the TypeError of the call, the function not entered; if
    it is None, the next invoke is answered as not loaded. *)
Theorem not_callable_entry_point_replaces_handler
        (rt : Runtime) (source : str) (module : namespace) (attr : pyobj)
        (req : Request) (items : list (str * value)) :
  code_file rt = Some source ->
  exec_module source = Ok module ->
  getattr module FUNCTION_HANDLER = Some attr ->
  callable attr = false ->
  path req = py "/invoke" ->
  json_loads (read_body req) = Ok (VDict items) ->
  let msg := py "Handler '" ++ FUNCTION_HANDLER ++ py "' is not callable" in
  let rt' := set_load_error (Some msg) (set_handler_func attr rt) in
  load rt = (Ok false, rt')
  /\ handler_func rt' = attr
  /\ serve (do_POST req) rt' =
     match attr with
     | PyData t =>
         mkReply (timed rt')
           [Head 500;
            Body (error_envelope (duration_ms rt')
                    (TypeError (py "'" ++ t ++ py "' object is not callable")) [])]
           [] None
     | _ =>
         mkReply rt' [Head 500; Body (not_loaded_envelope (Some msg))] [] None
     end.
Proof.
  intros Hfile Hexec Hattr Hc Hp Hj msg rt'.
  split; [now apply load_not_callable with source module|].
  split; [reflexivity|].
  destruct attr as [|h|t]; [|discriminate|].
  - now apply invoke_not_loaded_reply.
  - apply invoke_not_callable_reply with (VDict items) (event_of items); auto.
Qed.

(** X11.  POST /reload only reads: the source file, the streams and the
    clock count are as before, nothing is opened or written, and the user
    function is not entered -- the one thing done is the load. *)
Theorem reload_only_loads (req : Request) (rt : Runtime) :
  path req = py "/reload" ->
  let reply := serve (do_POST req) rt in
  did reply = [Loading]
  /\ code_file (after reply) = code_file rt
  /\ disk_fault (after reply) = disk_fault rt
  /\ sys (after reply) = sys rt
  /\ ticks (after reply) = ticks rt.
Proof.
  intros Hp reply. subst reply. reload_path rt req. cbn. auto.
Qed.

(** X12.  /health after a reload that failed while a handler was loaded
    reports both at once: [codeLoaded] true and the error of the failed
    load. *)
Theorem health_reports_loaded_and_error
        (rt : Runtime) (h : callable_t) (msg : str) (req : Request) :
  handler_func rt = PyFunc h ->
  load_failure rt msg ->
  path req = py "/health" ->
  let reply := serve (do_GET req) (snd (load rt)) in
  status (sent reply) = Some 200%Z
  /\ field "codeLoaded" (sent reply) = Some (VBool true)
  /\ field "error" (sent reply) = Some (VStr msg)
  /\ after reply = snd (load rt).
Proof.
  intros Hf Hfail Hp reply. subst reply.
  assert (Hl : load rt = (Ok false, set_load_error (Some msg) rt)).
  { destruct Hfail as [H | source e H He | source module H He Hg].
    - now apply load_not_found.
    - now apply load_exec_raises with source.
    - now apply load_handler_missing with source module. }
  rewrite Hl. cbn [snd].
  rewrite (health_reply _ req Hp). unfold health_body. cbn [handler_func set_load_error].
  rewrite Hf. repeat split.
Qed.


(** ** /write-code *)

(** X15.  A [code] that is truthy but not a string (a number, true, a
    non-empty array or object) passes the missing-field test and reaches
    [f.write] after the file has been opened: the answer is 500 with the
    TypeError of [write], no load is attempted and the loaded object
    stays, but the source file is now empty. *)
Theorem write_code_with_non_text_code
        (rt : Runtime) (req : Request) (items : list (str * value)) (code : value) :
  path req = py "/write-code" ->
  json_loads (read_body req) = Ok (VDict items) ->
  lookup (py "code") items = Some code ->
  truthy code = true ->
  (forall text : str, code <> VStr text) ->
  disk_fault rt = None ->
  serve (do_POST req) rt =
  mkReply (set_code_file (Some []) rt)
          [Head 500;
           Body (VDict [(py "error",
                         VStr (py "write() argument must be str, not " ++ type_name code))])]
          [Opened] None.
Proof.
  intros Hp Hj Hcode Ht Hn Hdisk.
  apply write_code_not_text_reply with (VDict items); auto.
  unfold py_get. now rewrite Hcode.
Qed.

(** X16.  A /write-code that fails before the file is opened -- the body
    is not JSON, or is JSON but not an object, or the file cannot be
    opened for writing -- is answered 500 with only an [error] field (the
    fault's message), and nothing has happened: same file, same loaded
    object, no load attempted. *)
Theorem write_code_rejected_before_writing
        (rt : Runtime) (req : Request) (e : Exc) :
  path req = py "/write-code" ->
  match json_loads (read_body req) with
  | Raise e' => e' = e
  | Ok (VDict items) =>
      match lookup (py "code") items with
      | Some code => truthy code = true /\ disk_fault rt = Some e
      | None => False
      end
  | Ok v =>
      e = AttributeError (py "'" ++ type_name v ++ py "' object has no attribute 'get'")
  end ->
  serve (do_POST req) rt =
  mkReply rt [Head 500; Body (VDict [(py "error", VStr (exc_str e))])] [] None.
Proof.
  intros Hp Hcase.
  destruct (json_loads (read_body req)) as [v|e'] eqn:Hj.
  - destruct v;
      try (subst e; eapply write_code_not_object_reply; [exact Hp | exact Hj | reflexivity]).
    destruct (lookup (py "code") items) as [code|] eqn:Hcode; [|contradiction].
    destruct Hcase as [Ht Hd].
    apply write_code_disk_fault_reply with (VDict items) code; auto.
    unfold py_get. now rewrite Hcode.
  - subst e'. now apply write_code_undecodable_reply.
Qed.


(** ** /invoke *)

(** X18.  A handler that returns something the encoder rejects: the 200
    head is already written when [json.dumps] raises, so the connection
    carries a 200 head, then a 500 head and the error envelope.  That
    envelope holds the encoder's message, a duration taken from a third
    clock reading, and -- unlike the envelope of a handler fault -- the
    captured lines. *)
Theorem unencodable_result_is_answered_twice
        (rt : Runtime) (req : Request) (h : callable_t) (items : list (str * value))
        (result : value) (io : Sys) (out err : str) (e : Exc) :
  path req = py "/invoke" ->
  handler_func rt = PyFunc h ->
  json_loads (read_body req) = Ok (VDict items) ->
  h (event_of items) capture = (Ok result, io) ->
  getvalue (sys_stdout io) = Ok out ->
  getvalue (sys_stderr io) = Ok err ->
  unencodable result = Some e ->
  serve (do_POST req) rt =
  mkReply (set_ticks (3 + ticks rt) rt)
    [Head 200; Head 500;
     Body (VDict
             [(py "status", VStr (py "error"));
              (py "duration_ms",
               VInt (int ((time_time (S (S (ticks rt))) - time_time (ticks rt)) * 1000)));
              (py "error", VStr (exc_str e));
              (py "stack", VStr (format_exc e));
              (py "logs", VList (map VStr (captured_lines out ++ error_lines err)))])]
    [Entered (event_of items)] None.
Proof.
  intros Hp Hf Hj Hh Ho He Henc.
  rewrite (invoke_returns_reply rt req h (VDict items) (event_of items) result io out err);
    auto.
  unfold returned. now rewrite Henc.
Qed.

(** X19.  The reported duration is not negative as long as the clock does
    not go back between the two readings. *)
Theorem duration_is_not_negative (rt : Runtime) :
  (time_time (ticks rt) <= time_time (S (ticks rt)))%Q ->
  (0 <= duration_ms rt)%Z.
Proof.
  intros Hle. unfold duration_ms, int.
  apply Z.quot_pos; [|apply Pos2Z.is_pos].
  destruct (time_time (ticks rt)) as [a p], (time_time (S (ticks rt))) as [b q].
  unfold Qle in Hle. cbn in *. nia.
Qed.

(** X20.  A request without a body (no Content-Length, or 0) is read as
    the text of an empty object: /invoke enters the handler with the
    empty object as the event, and /write-code is answered 400 for the
    missing [code] field. *)
Theorem request_without_body (rt : Runtime) (req : Request) (h : callable_t) :
  (content_length req <= 0)%Z ->
  json_loads (py "{}") = Ok (VDict []) ->
  (path req = py "/invoke" -> handler_func rt = PyFunc h ->
   did (serve (do_POST req) rt) = [Entered (VDict [])])
  /\ (path req = py "/write-code" ->
      serve (do_POST req) rt =
      mkReply rt [Head 400; Body (VDict [(py "error", VStr (py "Missing code field"))])]
              [] None).
Proof.
  intros Hlen Hempty.
  assert (Hbody : read_body req = py "{}").
  { unfold read_body. destruct (0 <? content_length req)%Z eqn:E; [|reflexivity].
    apply Z.ltb_lt in E. lia. }
  split.
  - intros Hp Hf. apply invoke_enters with h (VDict []); auto.
    now rewrite Hbody.
  - intros Hp. apply write_code_falsy_reply with (VDict []) VNone; auto.
    now rewrite Hbody.
Qed.

(** ** The running server *)

(** X21.  In every state the server can be in between two requests, a
    clean record means an invocable handler: if [load_error] is None then
    [handler_func] holds a callable.  (The converse fails: after a failed
    reload a callable is held together with an error.) *)
Theorem no_error_means_callable_handler (rt0 rt : Runtime) :
  reachable rt0 rt ->
  load_error rt = None ->
  callable (handler_func rt) = true.
Proof.
  intros Hreach. induction Hreach as [|rt m req Hreach IH|rt file fault Hreach IH].
  - destruct (load_summary rt0) as (b & rt' & Hl & _ & Hcall & _).
    rewrite Hl. exact Hcall.
  - unfold handle. destruct m.
    + get_paths rt req; exact IH.
    + post_paths rt req; cbn [after];
        try match goal with Hf : handler_func rt = _ |- _ => cbn; rewrite Hf end;
        first [exact IH | assumption].
  - exact IH.
Qed.

(** X22.  In every state the server can be in between two requests, the
    streams installed in [sys] are the ones the process started with: no
    request, whatever its method and path and whatever the handler does,
    leaves a capture buffer behind. *)
Theorem streams_are_the_original_ones (rt0 rt : Runtime) :
  reachable rt0 rt ->
  sys rt = sys rt0.
Proof.
  intros Hreach. induction Hreach as [|rt m req Hreach IH|rt file fault Hreach IH].
  - destruct (load_summary rt0) as (b & rt' & Hl & _ & _ & _ & _ & Hsys & _).
    rewrite Hl. exact Hsys.
  - unfold handle. destruct m.
    + get_paths rt req; exact IH.
    + post_paths rt req; cbn [after];
        first [ exact IH
              | match goal with H : sys _ = sys _ |- _ => rewrite H end; exact IH ].
  - exact IH.
Qed.

End Further.

(** ** The further properties on a concrete host *)

Section FurtherExamples.

Import Lab.

Ltac computed := vm_compute; first [reflexivity | discriminate | intros; discriminate].

(** X2, witness: two lines with blanks around them. *)
Lemma captured_lines_rebuild_text_witness :
  let text := 32 :: py "a" ++ [10; 32] ++ py "b" ++ [32; 10] in
  captured_lines text = [py "a"; 32 :: py "b"]
  /\ join [10] (captured_lines text) = strip text.
Proof.
  intros text.
  assert (Hne : text <> []) by discriminate.
  split; [reflexivity|].
  exact (proj2 (proj2 (captured_lines_rebuild_text text Hne))).
Defined.

(** X3, witness: the output of a bare [print()]. *)
Lemma blank_output_gives_one_empty_line_witness : captured_lines [10] = [[]].
Proof.
  assert (Hne : [10] <> ([] : str)) by discriminate.
  exact (blank_output_gives_one_empty_line [10] Hne eq_refl).
Defined.

(** X6, witness: an invoke of the echo handler. *)
Lemma invoke_touches_only_the_clock_witness :
  let rt := serving "def handler(event): return event" in
  let reply := serve (do_POST (Demo.post "/invoke" (py "{}"))) rt in
  (exists n : nat, after reply = set_ticks n rt)
  /\ (did reply = [] \/ exists event : value, did reply = [Entered event]).
Proof.
  intros rt reply.
  exact (invoke_touches_only_the_clock (Demo.post "/invoke" (py "{}")) rt eq_refl).
Defined.

(** X7, witness: POST on the path of the GET endpoint, and a query string
    on /invoke. *)
Lemma unknown_path_is_not_found_witness :
  let rt := serving "def handler(event): return event" in
  handle POST (Demo.post "/health" []) rt = mkReply rt [Head 404; Body not_found] [] None
  /\ handle POST (Demo.post "/invoke?x=1" (py "{}")) rt
     = mkReply rt [Head 404; Body not_found] [] None.
Proof.
  intros rt. split.
  - apply (unknown_path_is_not_found POST (Demo.post "/health" []) rt).
    repeat split; computed.
  - apply (unknown_path_is_not_found POST (Demo.post "/invoke?x=1" (py "{}")) rt).
    repeat split; computed.
Defined.

(** X8, witness: version A of the code, loaded at start-up. *)
Lemma valid_source_loads_and_reports_healthy_witness :
  let rt := Demo.boot (Some (py "handler = lambda event: 1")) in
  let rt' := set_load_error None (set_handler_func (PyFunc Demo.version_a) rt) in
  load rt = (Ok true, rt')
  /\ field "codeLoaded" (sent (serve (do_GET (mkRequest (py "/health") 0 [])) rt'))
     = Some (VBool true).
Proof.
  intros rt rt'.
  assert (He : exec_module (py "handler = lambda event: 1")
               = Ok [(py "handler", PyFunc Demo.version_a)]) by computed.
  destruct (valid_source_loads_and_reports_healthy rt _ _ Demo.version_a
              (mkRequest (py "/health") 0 []) eq_refl He eq_refl eq_refl) as [Hl Hh].
  split; [exact Hl|]. subst rt'. now rewrite Hh.
Defined.

(** X9, witness: [handler = 5] replaces version A; [handler = None] too. *)
Lemma not_callable_entry_point_replaces_handler_witness :
  let five := set_code_file (Some (py "handler = 5")) (serving "handler = lambda event: 1") in
  let none := set_code_file (Some (py "handler = None")) (serving "handler = lambda event: 1") in
  let req := Demo.post "/invoke" (py "{}") in
  fst (load five) = Ok false
  /\ handler_func (snd (load five)) = PyData (py "int")
  /\ status (sent (serve (do_POST req) (snd (load five)))) = Some 500%Z
  /\ fst (load none) = Ok false
  /\ handler_func (snd (load none)) = PyNone.
Proof.
  intros five none req.
  assert (H5 : exec_module (py "handler = 5") = Ok [(py "handler", PyData (py "int"))])
    by computed.
  assert (H0 : exec_module (py "handler = None") = Ok [(py "handler", PyNone)])
    by computed.
  assert (Hj : json_loads (read_body req) = Ok (VDict [])) by computed.
  destruct (not_callable_entry_point_replaces_handler five _ _ (PyData (py "int")) req []
              eq_refl H5 eq_refl eq_refl eq_refl Hj) as (Hl5 & Hh5 & Hr5).
  destruct (not_callable_entry_point_replaces_handler none _ _ PyNone req []
              eq_refl H0 eq_refl eq_refl eq_refl Hj) as (Hl0 & Hh0 & _).
  rewrite Hl5, Hl0. cbn [fst snd]. rewrite Hr5.
  repeat split.
Defined.

(** X11, witness: a reload of version A. *)
Lemma reload_only_loads_witness :
  let rt := serving "handler = lambda event: 1" in
  let reply := serve (do_POST (Demo.post "/reload" [])) rt in
  did reply = [Loading] /\ code_file (after reply) = code_file rt.
Proof.
  intros rt reply.
  destruct (reload_only_loads (Demo.post "/reload" []) rt eq_refl) as (Hd & Hf & _).
  split; [exact Hd | exact Hf].
Defined.

(** X12, witness: version A loaded, then the file disappears and a load
    fails. *)
Lemma health_reports_loaded_and_error_witness :
  let rt := set_code_file None (serving "handler = lambda event: 1") in
  let reply := serve (do_GET (mkRequest (py "/health") 0 [])) (snd (load rt)) in
  field "codeLoaded" (sent reply) = Some (VBool true)
  /\ field "error" (sent reply)
     = Some (VStr (py "Function code not found at /function/code.py")).
Proof.
  intros rt reply.
  assert (Hfail : load_failure rt (py "Function code not found at /function/code.py"))
    by exact (@SourceNotFound Lab.host rt eq_refl).
  destruct (health_reports_loaded_and_error rt Demo.version_a _
              (mkRequest (py "/health") 0 []) eq_refl Hfail eq_refl)
    as (_ & Hc & He & _).
  split; [exact Hc | exact He].
Defined.

(** X15, witness: [code] is the number 5. *)
Lemma write_code_with_non_text_code_witness :
  let rt := serving "handler = lambda event: 1" in
  let reply := serve (do_POST (Demo.post "/write-code" (Demo.dq "{'code': 5}"))) rt in
  code_file rt = Some (py "handler = lambda event: 1")
  /\ code_file (after reply) = Some []
  /\ field "error" (sent reply)
     = Some (VStr (py "write() argument must be str, not int")).
Proof.
  intros rt reply.
  assert (Hj : json_loads (read_body (Demo.post "/write-code" (Demo.dq "{'code': 5}")))
               = Ok (VDict [(py "code", VInt 5)])) by computed.
  assert (Hr := write_code_with_non_text_code rt (Demo.post "/write-code" (Demo.dq "{'code': 5}"))
                  _ (VInt 5) eq_refl Hj eq_refl eq_refl
                  (fun text => ltac:(discriminate)) eq_refl).
  subst reply. rewrite Hr. repeat split.
Defined.

(** X16, witness: a body that is not JSON, and one that is an array. *)
Lemma write_code_rejected_before_writing_witness :
  let rt := serving "handler = lambda event: 1" in
  serve (do_POST (Demo.post "/write-code" (py "not json"))) rt
  = mkReply rt
      [Head 500;
       Body (VDict [(py "error", VStr (py "Expecting value: line 1 column 1 (char 0)"))])]
      [] None
  /\ serve (do_POST (Demo.post "/write-code" (py "[1, 2]"))) rt
     = mkReply rt
         [Head 500;
          Body (VDict [(py "error", VStr (py "'list' object has no attribute 'get'"))])]
         [] None.
Proof.
  intros rt. split.
  - apply (write_code_rejected_before_writing rt (Demo.post "/write-code" (py "not json"))
             (Demo.JSONDecodeError (py "Expecting value: line 1 column 1 (char 0)"))
             eq_refl).
    computed.
  - apply (write_code_rejected_before_writing rt (Demo.post "/write-code" (py "[1, 2]"))
             (AttributeError (py "'list' object has no attribute 'get'")) eq_refl).
    computed.
Defined.

(** X18, witness: a handler that prints "made" and returns [object()]. *)
Lemma unencodable_result_is_answered_twice_witness :
  let rt := serving "def handler(event): print('made'); return object()" in
  let reply := serve (do_POST (Demo.post "/invoke" (py "{}"))) rt in
  handler_func rt = PyFunc maker
  /\ map (fun s => match s with Head c => Some c | Body _ => None end) (sent reply)
     = [Some 200%Z; Some 500%Z; None]
  /\ field "error" (sent reply)
     = Some (VStr (py "Object of type object is not JSON serializable"))
  /\ field "logs" (sent reply) = Some (VList [VStr (py "made")])
  /\ ticks (after reply) = 3%nat.
Proof.
  intros rt reply. split; [reflexivity|].
  assert (Hj : json_loads (read_body (Demo.post "/invoke" (py "{}"))) = Ok (VDict []))
    by computed.
  assert (Hr := unencodable_result_is_answered_twice rt (Demo.post "/invoke" (py "{}"))
                  maker [] (VObject (py "object"))
                  (mkSys (StringIO (py "made" ++ Demo.LF)) (StringIO []))
                  (py "made" ++ Demo.LF) []
                  (TypeError (py "Object of type object is not JSON serializable"))
                  eq_refl eq_refl Hj eq_refl eq_refl eq_refl eq_refl).
  subst reply. rewrite Hr. repeat split.
Defined.

(** X19, witness: the clock of the concrete host advances by a
    millisecond per reading. *)
Lemma duration_is_not_negative_witness :
  (0 <= duration_ms (serving "handler = lambda event: 1"))%Z.
Proof.
  apply duration_is_not_negative. vm_compute. discriminate.
Defined.

(** X20, witness: requests with Content-Length 0. *)
Lemma request_without_body_witness :
  let rt := serving "def handler(event): return event" in
  did (serve (do_POST (mkRequest (py "/invoke") 0 [])) rt) = [Entered (VDict [])]
  /\ status (sent (serve (do_POST (mkRequest (py "/write-code") 0 [])) rt)) = Some 400%Z.
Proof.
  intros rt.
  assert (Hle : (0 <= 0)%Z) by reflexivity.
  assert (Hj : json_loads (py "{}") = Ok (VDict [])) by computed.
  split.
  - exact (proj1 (request_without_body rt (mkRequest (py "/invoke") 0 []) Demo.echo Hle Hj)
             eq_refl eq_refl).
  - rewrite (proj2 (request_without_body rt (mkRequest (py "/write-code") 0 []) Demo.echo
                      Hle Hj) eq_refl).
    reflexivity.
Defined.

(** X21, witness: version A at start-up, a write of version B, an invoke. *)
Lemma no_error_means_callable_handler_witness :
  let rt0 := Demo.boot (Some (py "handler = lambda event: 1")) in
  let rt1 := snd (load rt0) in
  let rt2 := after (handle POST (Demo.post "/write-code"
                                   (Demo.dq "{'code': 'handler = lambda event: 2'}")) rt1) in
  let rt3 := after (handle POST (Demo.post "/invoke" (py "{}")) rt2) in
  load_error rt3 = None /\ callable (handler_func rt3) = true.
Proof.
  intros rt0 rt1 rt2 rt3.
  assert (Hreach : reachable rt0 rt3) by (apply served, served, started).
  assert (Hnone : load_error rt3 = None) by computed.
  split; [exact Hnone | exact (no_error_means_callable_handler rt0 rt3 Hreach Hnone)].
Defined.

(** X22, witness: the same run, with a handler that raises in between. *)
Lemma streams_are_the_original_ones_witness :
  let rt0 := Demo.boot (Some (py "def handler(event): print('hello'); raise Exception('boom')")) in
  let rt1 := snd (load rt0) in
  let rt2 := after (handle POST (Demo.post "/invoke" (py "{}")) rt1) in
  let rt3 := after (handle GET (mkRequest (py "/health") 0 []) rt2) in
  sys rt3 = mkSys (Console 1) (Console 2).
Proof.
  intros rt0 rt1 rt2 rt3.
  assert (Hreach : reachable rt0 rt3) by (apply served, served, started).
  exact (streams_are_the_original_ones rt0 rt3 Hreach).
Defined.

End FurtherExamples.

(** * The request as it arrives *)

Section Arriving.

Context {host : Host} {transport : Transport}.

Lemma plain_is_encodable (depth : nat) (v : value) :
  plain depth v = true -> unencodable v = None.
Proof.
  revert v. induction depth as [|d IH]; intros v; [discriminate|].
  destruct v as [| | | | |xs|items|]; try reflexivity; try discriminate.
  - cbn [plain]. intros H. cbn [unencodable].
    induction xs as [|x xs IHxs]; [reflexivity|].
    cbn [forallb] in H. apply andb_true_iff in H. destruct H as [Hx Hxs].
    rewrite (IH x Hx). now apply IHxs.
  - cbn [plain]. intros H. cbn [unencodable].
    induction items as [|[k x] items IHi]; [reflexivity|].
    cbn [forallb snd] in H. apply andb_true_iff in H. destruct H as [Hx Hxs].
    rewrite (IH x Hx). now apply IHi.
Qed.

(** Which requests are read, and what follows. *)
Lemma do_POST_bytes_reply (h : HttpRequest) (rt : Runtime) :
  serve (do_POST_bytes h) rt =
  if str_eqb (target h) (py "/write-code")
     || (negb (str_eqb (target h) (py "/reload"))
         && str_eqb (target h) (py "/invoke")
         && negb (is_None (handler_func rt)))
  then match receive h with
       | Raise e => mkReply rt [] [] (Some e)
       | Ok req => serve (do_POST req) rt
       end
  else serve (do_POST (unread h)) rt.
Proof.
  unfold do_POST_bytes, serve.
  destruct (str_eqb (target h) (py "/write-code")); cbn [orb].
  - unfold bind, lift. destruct (receive h); reflexivity.
  - destruct (str_eqb (target h) (py "/reload")); cbn [negb andb]; [reflexivity|].
    destruct (str_eqb (target h) (py "/invoke")); cbn [andb]; [|reflexivity].
    unfold bind at 1. unfold gets. cbn [runtime].
    destruct (is_None (handler_func rt)); cbn [negb]; [reflexivity|].
    unfold bind, lift. destruct (receive h); reflexivity.
Qed.




(** X4.  A request that cannot be read is not answered.  When the
    Content-Length header is not an integer or the body is not UTF-8, a
    POST /write-code, and a POST /invoke while something is loaded,
    raise out of [do_POST] with nothing written and nothing changed: no
    file opened, no load, the function not entered.  The same request on
    /invoke while nothing is loaded is still answered as not loaded, and
    on /reload it still reloads: those branches never read it. *)
Theorem unreadable_request_is_not_answered (rt : Runtime) (h : HttpRequest) (e : Exc) :
  receive h = Raise e ->
  (target h = py "/write-code"
   \/ (target h = py "/invoke" /\ handler_func rt <> PyNone) ->
   serve (do_POST_bytes h) rt = mkReply rt [] [] (Some e))
  /\ (target h = py "/invoke" -> handler_func rt = PyNone ->
      serve (do_POST_bytes h) rt =
      mkReply rt [Head 500; Body (not_loaded_envelope (load_error rt))] [] None)
  /\ (target h = py "/reload" ->
      exists (b : bool) (rt' : Runtime),
        load rt = (Ok b, rt')
        /\ serve (do_POST_bytes h) rt =
           mkReply rt' [Head (if b then 200 else 500);
                        Body (reload_envelope b (load_error rt'))]
                   [Loading] None).
Proof.
  intros Hr. repeat apply conj.
  - intros [Ht | [Ht Hf]]; rewrite do_POST_bytes_reply, Ht.
    + change (str_eqb (py "/write-code") (py "/write-code")) with true.
      cbn [orb]. now rewrite Hr.
    + change (str_eqb (py "/invoke") (py "/write-code")) with false.
      change (str_eqb (py "/invoke") (py "/reload")) with false.
      change (str_eqb (py "/invoke") (py "/invoke")) with true.
      rewrite (not_none_loaded rt Hf). cbn [orb andb negb]. now rewrite Hr.
  - intros Ht Hf. rewrite do_POST_bytes_reply, Ht, Hf.
    change (str_eqb (py "/invoke") (py "/write-code")) with false.
    change (str_eqb (py "/invoke") (py "/reload")) with false.
    cbn [orb andb negb is_None].
    now apply invoke_not_loaded_reply.
  - intros Ht. rewrite do_POST_bytes_reply, Ht.
    change (str_eqb (py "/reload") (py "/write-code")) with false.
    change (str_eqb (py "/reload") (py "/reload")) with true.
    cbn [orb andb negb].
    destruct (load_returns rt) as (b & rt' & Hl & _).
    exists b, rt'. split; [exact Hl|].
    now apply reload_reply.
Qed.

(** X5.  Whatever a POST leaves on the connection is either nothing or a
    well-formed answer: one head and one JSON object under 200, 400, 404
    or 500, with a string [error] unless the status is 200 -- or, for a
    result that cannot be encoded, the 200 head followed by the 500 head
    and its object.  Never a body without a head, a head without a body,
    or a failure status without an error message. *)
Theorem what_is_written_is_well_formed (rt : Runtime) (h : HttpRequest) :
  sent (serve (do_POST_bytes h) rt) = []
  \/ well_formed (sent (serve (do_POST_bytes h) rt)).
Proof.
  rewrite do_POST_bytes_reply.
  destruct (str_eqb (target h) (py "/write-code")
            || negb (str_eqb (target h) (py "/reload"))
               && str_eqb (target h) (py "/invoke")
               && negb (is_None (handler_func rt))).
  - destruct (receive h) as [req|e].
    + right. apply read_post_is_answered.
    + left. reflexivity.
  - right. apply read_post_is_answered.
Qed.

(** X17.  A handler that returns an object built from None, booleans,
    numbers, strings, lists and dictionaries, nested at most 64 deep and
    with integers of at most 4300 digits, is answered 200 with status
    "success", a duration, the object itself as [response] and the
    captured lines; the state is the one from before with the clock read
    twice. *)
Theorem invoke_success_answer
        (rt : Runtime) (req : Request) (h : callable_t) (items : list (str * value))
        (result : value) (io : Sys) (out err : str) :
  path req = py "/invoke" ->
  handler_func rt = PyFunc h ->
  json_loads (read_body req) = Ok (VDict items) ->
  h (event_of items) capture = (Ok result, io) ->
  getvalue (sys_stdout io) = Ok out ->
  getvalue (sys_stderr io) = Ok err ->
  plain 64 result = true ->
  exists d : Z,
    serve (do_POST req) rt =
    mkReply (set_ticks (2 + ticks rt) rt)
      [Head 200;
       Body (VDict
               [(py "status", VStr (py "success"));
                (py "duration_ms", VInt d);
                (py "response", result);
                (py "logs", VList (map VStr (captured_lines out ++ error_lines err)))])]
      [Entered (event_of items)] None.
Proof.
  intros Hp Hf Hj Hh Ho He Hplain. exists (duration_ms rt).
  rewrite (invoke_returns_reply rt req h (VDict items) (event_of items) result io out err);
    auto.
  unfold returned. now rewrite (plain_is_encodable 64 result Hplain).
Qed.

End Arriving.

(** ** The arriving request on a concrete host *)

Section ArrivingExamples.

Import Lab.
Import Wire.



(** X4, witness: a Content-Length that is not a number on /write-code, and
    the byte 0xFF on /invoke and on /reload. *)
Lemma unreadable_request_is_not_answered_witness :
  let rt := serving "handler = lambda event: 1" in
  let words := mkHttpRequest (py "/write-code") (Some (py "ten")) (py "{}") in
  let reload := mkHttpRequest (py "/reload") (Some (py "1")) [0xFF] in
  serve (do_POST_bytes words) rt
  = mkReply rt [] []
      (Some (ValueError (py "invalid literal for int() with base 10: 'ten'")))
  /\ sent (serve (do_POST_bytes reload) rt)
     = [Head 200; Body (reload_envelope true None)].
Proof.
  intros rt words reload.
  assert (Hw : receive words
               = Raise (ValueError (py "invalid literal for int() with base 10: 'ten'")))
    by (vm_compute; reflexivity).
  assert (Hr : receive reload
               = Raise (mkExc (py "UnicodeDecodeError")
                          (py "'utf-8' codec can't decode byte 0xff in position 0: invalid start byte")))
    by (vm_compute; reflexivity).
  split.
  - exact (proj1 (unreadable_request_is_not_answered rt words _ Hw) (or_introl eq_refl)).
  - destruct (proj2 (proj2 (unreadable_request_is_not_answered rt reload _ Hr)) eq_refl)
      as (b & rt' & Hl & Hs).
    rewrite Hs. cbn [sent].
    assert (Hload : load rt
                    = (Ok true,
                       set_load_error None (set_handler_func (PyFunc Demo.version_a) rt)))
      by (vm_compute; reflexivity).
    rewrite Hload in Hl. inversion Hl; subst. reflexivity.
Defined.

(** X17, witness: the echo handler on an object with an [event] field. *)
Lemma invoke_success_answer_witness :
  let rt := serving "def handler(event): return event" in
  let req := Demo.post "/invoke" (Demo.dq "{'event': {'x': 1}}") in
  exists d : Z,
    sent (serve (do_POST req) rt)
    = [Head 200;
       Body (VDict [(py "status", VStr (py "success"));
                    (py "duration_ms", VInt d);
                    (py "response", VDict [(py "x", VInt 1)]);
                    (py "logs", VList [])])].
Proof.
  intros rt req.
  assert (Hj : json_loads (read_body req)
               = Ok (VDict [(py "event", VDict [(py "x", VInt 1)])]))
    by (vm_compute; reflexivity).
  assert (Hplain : plain 64 (VDict [(py "x", VInt 1)]) = true)
    by (vm_compute; reflexivity).
  destruct (invoke_success_answer rt req Demo.echo _ (VDict [(py "x", VInt 1)])
              capture [] [] eq_refl eq_refl Hj eq_refl eq_refl eq_refl Hplain)
    as (d & Hr).
  exists d. now rewrite Hr.
Defined.

End ArrivingExamples.
